(** * get_tests.py: a shallow embedding of the test-report comparator

    The development follows [src/get_tests/get_tests.py] function by
    function.  Python values are modelled as follows.

    - [str] is [string]; a character of type [ascii] stands for the code
      point with the same number, so the model covers the names whose code
      points are below 256.  Comparison is by code point, as in Python.
    - A [dict] is an association list in insertion order (Python
      dictionaries iterate in insertion order).  Python keeps each key
      once; the statements about arbitrary groups ask for it with [wf].
    - A [float] is a [spec_float] read at binary64 (53 bits of mantissa,
      exponents up to 1024).  The integer [0] that the loader stores when
      times are zeroed, and the integer [0] from which [sum] starts, are the
      float [+0.0]: the scripts only add, subtract, divide, compare and
      format these numbers, and none of these tells the two apart.  [sum]
      adds from left to right; CPython from 3.12 on also carries the
      rounding error along, which gives the same sum for one or two times
      and may change the last bit for more.
    - [float(s)] on a string and the XML parser are parameters of the
      loader: [float_of_string] gives [None] where Python raises
      [ValueError], and [parse] gives the attributes of the [test] elements
      of a file in document order.
    - [argparse] is modelled from the texts it found for the options on,
      in the order of the command line: the model applies the [type] and
      the [default] of the options.
    - [print] appends a line to the output, which every function returns as
      a [list string].
    - A raised exception is a value of type [exn]; the functions that can
      raise return a [result]. *)

From Stdlib Require Import List String Ascii Bool Arith NArith ZArith Lia.
From Stdlib Require Import Sorting.Sorted Sorting.Permutation.
From Stdlib Require Import Classes.RelationClasses Structures.OrdersEx.
From Stdlib Require Import Numbers.DecimalString.
From Stdlib Require Numbers.DecimalNat Numbers.DecimalFacts.
From Stdlib Require Import Floats.SpecFloat.
Import ListNotations.

Local Open Scope string_scope.
Local Open Scope list_scope.

(** ** Strings *)

Module PyStr.

Definition backslash : ascii := "\"%char.

(** [s.replace('\\\\', '\\')]: every occurrence of two backslashes, found
    from left to right without overlap, becomes one backslash. *)
Fixpoint replace_double_backslash (s : string) : string :=
  match s with
  | EmptyString => EmptyString
  | String a s' =>
      match s' with
      | String b r =>
          if (Ascii.eqb a backslash && Ascii.eqb b backslash)%bool
          then String backslash (replace_double_backslash r)
          else String a (replace_double_backslash s')
      | EmptyString => String a EmptyString
      end
  end.

(** [s.endswith(suffix)] *)
Definition endswith (s suffix : string) : bool :=
  (String.length suffix <=? String.length s)%nat
  && String.eqb
       (substring (String.length s - String.length suffix)
                  (String.length suffix) s)
       suffix.

(** [s[:-n]] *)
Definition drop_last (n : nat) (s : string) : string :=
  substring 0 (String.length s - n) s.

(** [str.lower] on one code point below 256: the capital letters A-Z and
    the capital letters of the Latin-1 block (192-222, but not the
    multiplication sign 215) move up by 32. *)
Definition lower_char (c : ascii) : ascii :=
  let n := N_of_ascii c in
  if ((65 <=? n) && (n <=? 90)
      || (192 <=? n) && (n <=? 222) && negb (n =? 215))%N%bool
  then ascii_of_N (n + 32)
  else c.

Fixpoint lower (s : string) : string :=
  match s with
  | EmptyString => EmptyString
  | String c s' => String (lower_char c) (lower s')
  end.

(** [d in s]: [d] occurs in [s] as a contiguous substring. *)
Fixpoint contains (d s : string) : bool :=
  prefix d s
  || match s with
     | EmptyString => false
     | String _ s' => contains d s'
     end.

(** [s.split(sep)] for the one-character separator [sep]. *)
Fixpoint split (sep : ascii) (s : string) : list string :=
  match s with
  | EmptyString => [EmptyString]
  | String c s' =>
      if Ascii.eqb c sep then EmptyString :: split sep s'
      else match split sep s' with
           | seg :: segs => String c seg :: segs
           | [] => [String c EmptyString]
           end
  end.

(** [sep.join(segments)] *)
Definition join (sep : string) (segments : list string) : string :=
  String.concat sep segments.

(** [l[:-n]] and [l[-n:]] on lists *)
Definition list_drop_last {A} (n : nat) (l : list A) : list A :=
  firstn (List.length l - n) l.

Definition list_take_last {A} (n : nat) (l : list A) : list A :=
  skipn (List.length l - n) l.

(** [str(n)] for a natural number, as an f-string prints a length. *)
Definition of_nat (n : nat) : string :=
  NilEmpty.string_of_uint (Nat.to_uint n).

(** [sorted] order of strings. *)
Definition lt (a b : string) : Prop := String_as_OT.lt a b.

Definition leb (a b : string) : bool :=
  match String_as_OT.compare a b with
  | Gt => false
  | _ => true
  end.

(** [list.sort()] on strings.  The lists sorted by the script are key
    lists, whose members are distinct, so the result does not depend on
    the sorting algorithm. *)
Fixpoint insert_sorted (k : string) (l : list string) : list string :=
  match l with
  | [] => [k]
  | x :: l' => if leb k x then k :: l else x :: insert_sorted k l'
  end.

Fixpoint sort (l : list string) : list string :=
  match l with
  | [] => []
  | x :: l' => insert_sorted x (sort l')
  end.

End PyStr.

(** ** Dictionaries *)

Module PyDict.

Section Dict.
Context {V : Type}.

Definition dict := list (string * V).

Fixpoint lookup (d : dict) (k : string) : option V :=
  match d with
  | [] => None
  | (k', v) :: d' => if String.eqb k k' then Some v else lookup d' k
  end.

(** [k in d] *)
Definition mem (d : dict) (k : string) : bool :=
  match lookup d k with Some _ => true | None => false end.

(** [d[k] = v]: an existing key keeps its place, a new key goes last. *)
Fixpoint set (d : dict) (k : string) (v : V) : dict :=
  match d with
  | [] => [(k, v)]
  | (k', v') :: d' =>
      if String.eqb k k' then (k', v) :: d' else (k', v') :: set d' k v
  end.

Definition keys (d : dict) : list string := map fst d.

Definition values (d : dict) : list V := map snd d.

(** A well-formed dictionary holds each key once. *)
Definition wf (d : dict) : Prop := NoDup (keys d).

End Dict.

Arguments dict V : clear implicits.

End PyDict.

Import PyDict.

(** ** Numbers *)

Module PyNum.

Definition float := spec_float.

Definition prec : Z := 53.
Definition emax : Z := 1024.

Definition zero : float := S754_zero false.
Definition inf : float := S754_infinity false.

Definition add : float -> float -> float := SFadd prec emax.
Definition sub : float -> float -> float := SFsub prec emax.
Definition div : float -> float -> float := SFdiv prec emax.

(** [a > b] on floats *)
Definition gt (a b : float) : bool := SFltb b a.

(** [v == 0] *)
Definition eq_zero (v : float) : bool := SFeqb v zero.

(** [v > z] for a float [v] and an integer [z]: Python compares the two
    exactly, without rounding the integer to a float. *)
Definition gt_int (v : float) (z : Z) : bool :=
  match v with
  | S754_nan => false
  | S754_infinity s => negb s
  | S754_zero _ => (z <? 0)%Z
  | S754_finite s m e =>
      let sm := if s then Z.neg m else Z.pos m in
      match e with
      | Z.neg p => (z * 2 ^ Z.pos p <? sm)%Z
      | _ => (z <? sm * 2 ^ e)%Z
      end
  end.

(** [sum(...)] of floats: starts from 0 and adds from left to right. *)
Definition sum (l : list float) : float := fold_left add l zero.

(** [int(s)] on a string: surrounding white space is dropped, then comes
    an optional sign and decimal digits, which single underscores may
    separate.  The white space that [int] drops is the ASCII white space
    (tab to carriage return, and the space) and, of the code points from
    128 on, the next-line character 133 and the no-break space 160; the
    separators 28 to 31 are not dropped. *)
Definition is_space (c : ascii) : bool :=
  let n := N_of_ascii c in
  ((9 <=? n) && (n <=? 13) || (n =? 32) || (n =? 133) || (n =? 160))%N%bool.

Definition digit_of (c : ascii) : option Z :=
  let n := N_of_ascii c in
  if ((48 <=? n) && (n <=? 57))%N%bool then Some (Z.of_N (n - 48)) else None.

Fixpoint lstrip (s : list ascii) : list ascii :=
  match s with
  | c :: s' => if is_space c then lstrip s' else s
  | [] => []
  end.

Definition strip (s : list ascii) : list ascii :=
  rev (lstrip (rev (lstrip s))).

Fixpoint digits (acc : Z) (after_digit : bool) (s : list ascii) : option Z :=
  match s with
  | [] => if after_digit then Some acc else None
  | c :: s' =>
      match digit_of c with
      | Some d => digits (acc * 10 + d) true s'
      | None =>
          if (Ascii.eqb c "_" && after_digit)%bool
          then digits acc false s'
          else None
      end
  end.

(** CPython refuses to convert a text with more decimal digits than
    [sys.int_info.default_max_str_digits]; the sign, the underscores and
    the white space do not count, leading zeros do.  The script leaves the
    limit at its default. *)
Definition max_str_digits : nat := 4300.

Definition count_digits (s : list ascii) : nat :=
  List.length
    (filter (fun c => match digit_of c with Some _ => true | None => false end)
       s).

Definition numeral (body : list ascii) : option Z :=
  if (max_str_digits <? count_digits body)%nat then None
  else digits 0 false body.

Definition int (s : string) : option Z :=
  match strip (list_ascii_of_string s) with
  | [] => None
  | c :: body =>
      if Ascii.eqb c "-" then option_map Z.opp (numeral body)
      else if Ascii.eqb c "+" then numeral body
      else numeral (c :: body)
  end.

(** [f'{v:.2f}']: the exact value of [v], rounded to two decimals with
    ties to even. *)
Definition two_digits (n : Z) : string :=
  (if (n <? 10)%Z then "0" else "") ++ PyStr.of_nat (Z.to_nat n).

Definition fixed2 (neg : bool) (hundredths : Z) : string :=
  (if neg then "-" else "")
  ++ PyStr.of_nat (Z.to_nat (hundredths / 100)) ++ "."
  ++ two_digits (hundredths mod 100).

Definition round_half_even (num den : Z) : Z :=
  let q := (num / den)%Z in
  let r := (num mod den)%Z in
  match (2 * r ?= den)%Z with
  | Lt => q
  | Gt => (q + 1)%Z
  | Eq => if Z.even q then q else (q + 1)%Z
  end.

Definition format_2f (v : float) : string :=
  match v with
  | S754_nan => "nan"
  | S754_infinity s => if s then "-inf" else "inf"
  | S754_zero s => fixed2 s 0
  | S754_finite s m e =>
      match e with
      | Z.neg p => fixed2 s (round_half_even (Z.pos m * 100) (2 ^ Z.pos p))
      | _ => fixed2 s (Z.pos m * 2 ^ e * 100)
      end
  end.

End PyNum.

(** ** The script *)

Inductive exn : Type :=
| KeyError (key : string)
| ValueError (text : string)
| ArgumentError (text : string)
| ParseError (file : string).

Inductive result (A : Type) : Type :=
| Ok (a : A)
| Raise (e : exn).

Arguments Ok {A} a.
Arguments Raise {A} e.

Definition bind {A B} (r : result A) (f : A -> result B) : result B :=
  match r with
  | Ok a => f a
  | Raise e => Raise e
  end.

Notation "x <- r ;; k" := (bind r (fun x => k))
  (at level 61, r at next level, right associativity).

(** A test record is the pair [(name, time)]; a test group maps a key to
    the list of its records. *)
Definition record : Type := string * PyNum.float.
Definition tests_t : Type := dict (list record).

(** The attributes of one [test] element. *)
Definition attrib_t : Type := dict string.

Definition test_count {A} (list_tests : dict (list A)) : nat :=
  list_sum (map (@List.length A) (values list_tests)).

(** [d.setdefault(k, default)]: the value at [k], stored first when [k] is
    new. *)
Definition setdefault {V} (d : dict V) (k : string) (default : V)
  : dict V * V :=
  match lookup d k with
  | Some v => (d, v)
  | None => (set d k default, default)
  end.

(** [result] is the list held by the dictionary, so appending to it
    changes the dictionary at [k]. *)
Definition add_dict_list_item {A} (d : dict (list A)) (k : string) (v : A)
  : dict (list A) :=
  let '(d, result) := setdefault d k [] in
  set d k (result ++ [v]).

Definition add_dict_list_list {A} (d : dict (list A)) (k : string)
  (v : list A) : dict (list A) :=
  let '(d, result) := setdefault d k [] in
  set d k (result ++ v).

Definition update_dict_list {A} (d1 d2 : dict (list A)) : dict (list A) :=
  fold_left (fun d kv => add_dict_list_list d (fst kv) (snd kv)) d2 d1.

(** Lines 42-45 of [load]: the name with doubled backslashes undone, a
    final [.dll] or [.cmd] removed, in lower case. *)
Definition normalize (name : string) : string :=
  let canon_name := PyStr.replace_double_backslash name in
  let canon_name :=
    if (PyStr.endswith canon_name ".dll" || PyStr.endswith canon_name ".cmd")%bool
    then PyStr.drop_last 4 canon_name
    else canon_name in
  PyStr.lower canon_name.

(** Lines 49-52 of [load]: the first entry of [canon] that occurs in the
    name replaces it. *)
Fixpoint collapse (canon : list string) (canon_name : string) : string :=
  match canon with
  | [] => canon_name
  | c :: canon' =>
      if PyStr.contains c canon_name then c else collapse canon' canon_name
  end.

(** Line 46 of [load] *)
Definition dropped (drop : list string) (canon_name : string) : bool :=
  existsb (fun d => PyStr.contains d canon_name) drop.

Section Loader.

(** [float(s)] on a string: [None] when Python raises [ValueError]. *)
Variable float_of_string : string -> option PyNum.float.

(** Line 53: [0 if zero else float(attrib['time'])] *)
Definition read_time (attrib : attrib_t) (zero : bool)
  : result PyNum.float :=
  if zero then Ok PyNum.zero
  else match lookup attrib "time" with
       | None => Raise (KeyError "time")
       | Some text =>
           match float_of_string text with
           | Some t => Ok t
           | None => Raise (ValueError text)
           end
       end.

(** One turn of the loop of [load]. *)
Definition load_test (drop canon : list string) (zero : bool)
  (tests : tests_t) (attrib : attrib_t) : result tests_t :=
  match lookup attrib "name" with
  | None => Raise (KeyError "name")
  | Some name =>
      let canon_name := normalize name in
      if dropped drop canon_name then Ok tests
      else
        let canon_name := collapse canon canon_name in
        time <- read_time attrib zero ;;
        Ok (add_dict_list_item tests canon_name (name, time))
  end.

Fixpoint load_tests (drop canon : list string) (zero : bool)
  (tests : tests_t) (root : list attrib_t) : result tests_t :=
  match root with
  | [] => Ok tests
  | attrib :: root' =>
      tests <- load_test drop canon zero tests attrib ;;
      load_tests drop canon zero tests root'
  end.

(** [load]: [root] lists the attributes of the [test] elements of the
    parsed file, in document order.  The result is the group and the
    line printed. *)
Definition load (file : string) (root : list attrib_t)
  (drop canon : list string) (zero : bool) : result (tests_t * list string) :=
  tests <- load_tests drop canon zero [] root ;;
  Ok (tests,
      [(file ++ " has " ++ PyStr.of_nat (List.length tests)
             ++ " entries and " ++ PyStr.of_nat (test_count tests)
             ++ " tests")%string]).

End Loader.

(** [d[k]] where the script has just checked that [k] is a key of [d]. *)
Definition item {A} (d : dict (list A)) (k : string) : list A :=
  match lookup d k with
  | Some v => v
  | None => []
  end.

(** Line 64: [f'only in {label}: {k}'] *)
Definition only_in_line (label k : string) : string :=
  "only in " ++ label ++ ": " ++ k.

(** Line 69: [f'more in {label}: {k} ({len(v1)} > {len(v2)})'] *)
Definition more_in_line (label k : string) (len_v1 len_v2 : nat) : string :=
  "more in " ++ label ++ ": " ++ k
  ++ " (" ++ PyStr.of_nat len_v1 ++ " > " ++ PyStr.of_nat len_v2 ++ ")".

(** The body of the loop of [print_diff]. *)
Definition diff_line {A} (tests1 tests2 : dict (list A)) (label k : string)
  : list string :=
  match lookup tests2 k with
  | None => [only_in_line label k]
  | Some v2 =>
      let v1 := item tests1 k in
      if (List.length v2 <? List.length v1)%nat
      then [more_in_line label k (List.length v1) (List.length v2)]
      else []
  end.

Definition print_diff {A} (tests1 tests2 : dict (list A)) (label : string)
  : list string :=
  let keys1 := PyStr.sort (keys tests1) in
  flat_map (diff_line tests1 tests2 label) keys1.

(** Line 78: [float('inf') if v2 == 0 else v1/v2] *)
Definition ratio_of (v1 v2 : PyNum.float) : PyNum.float :=
  if PyNum.eq_zero v2 then PyNum.inf else PyNum.div v1 v2.

(** Line 79: [v1 - v2 > time_abs or ratio > time_ratio] *)
Definition slower (v1 v2 : PyNum.float) (time_abs : Z)
  (time_ratio : PyNum.float) : bool :=
  PyNum.gt_int (PyNum.sub v1 v2) time_abs
  || PyNum.gt (ratio_of v1 v2) time_ratio.

Definition time_of (tests : tests_t) (k : string) : PyNum.float :=
  PyNum.sum (map snd (item tests k)).

(** Line 80:
    [f'slower in {label}: {k} ({v1:.2f} > {v2:.2f}) {ratio:.2f}'] *)
Definition slower_line (label k : string) (v1 v2 ratio : PyNum.float)
  : string :=
  "slower in " ++ label ++ ": " ++ k
  ++ " (" ++ PyNum.format_2f v1 ++ " > " ++ PyNum.format_2f v2
  ++ ") " ++ PyNum.format_2f ratio.

(** The body of the loop of [print_time_diff]. *)
Definition time_diff_line (tests1 tests2 : tests_t) (label : string)
  (time_abs : Z) (time_ratio : PyNum.float) (k : string) : list string :=
  let v1 := time_of tests1 k in
  let v2 := time_of tests2 k in
  let ratio := ratio_of v1 v2 in
  if slower v1 v2 time_abs time_ratio
  then [slower_line label k v1 v2 ratio]
  else [].

Definition print_time_diff (tests1 tests2 : tests_t) (label : string)
  (time_abs : Z) (time_ratio : PyNum.float) : list string :=
  let keys := PyStr.sort (filter (mem tests2) (keys tests1)) in
  flat_map (time_diff_line tests1 tests2 label time_abs time_ratio) keys.

(** The two hardcoded profiles. *)
Record config_t : Type := {
  drop1 : list string;
  drop2 : list string;
  canon : list string
}.

(** The third entry of the first [canon] list is written in the script as
    an ordinary string literal: [\R], [\C] and [\V] are no escapes and keep
    their backslash, and [\b] is the backspace character, code 8. *)
Definition canon_b323557 : string :=
  "JIT\Regression\CLR-x86-JIT\V2.0-Beta2" ++ String (ascii_of_nat 8) "323557".

Definition configs : list config_t :=
  [ {| drop1 := ["il_conformance"];
       drop2 := ["runtime_81018"; "runtime_81019"; "runtime_81081"];
       canon := ["b598031"; "github_26491"; canon_b323557] |};
    {| drop1 := []; drop2 := []; canon := [] |} ].

Definition backslash_str : string := String PyStr.backslash EmptyString.

(** Line 119: the key without its last two segments. *)
Definition test_dir_of (test_name : string) : string :=
  PyStr.join backslash_str
    (PyStr.list_drop_last 2 (PyStr.split PyStr.backslash test_name)).

(** Line 142: the last two segments of the key. *)
Definition short_name_of (test_name : string) : string :=
  PyStr.join backslash_str
    (PyStr.list_take_last 2 (PyStr.split PyStr.backslash test_name)).

Definition group_test_by_directory {A} (tests : dict (list A))
  : dict (dict (list A)) :=
  fold_left
    (fun tests_by_dir kv =>
       let test_name := fst kv in
       let value := snd kv in
       let test_dir := test_dir_of test_name in
       let tests_by_dir :=
         if mem tests_by_dir test_dir then tests_by_dir
         else set tests_by_dir test_dir [] in
       let inner := match lookup tests_by_dir test_dir with
                    | Some inner => inner
                    | None => []
                    end in
       set tests_by_dir test_dir (set inner test_name value))
    tests [].

(** Line 135: the test of the first loop over a directory. *)
Definition differs {A} (tests tests2 : dict (list A)) (test_name : string)
  : bool :=
  negb (mem tests test_name && mem tests2 test_name
        && (List.length (item tests test_name)
            =? List.length (item tests2 test_name))%nat).

Definition tab : string := String (ascii_of_nat 9) EmptyString.
Definition newline : string := String (ascii_of_nat 10) EmptyString.

(** Line 140: [f"\nDirectory {directory_name}"] *)
Definition directory_line (directory_name : string) : string :=
  newline ++ "Directory " ++ directory_name.

(** Lines 150 and 152: [f"\t Only in 1: {short_name}"] and the same for 2 *)
Definition grouped_only_line (side short_name : string) : string :=
  tab ++ " Only in " ++ side ++ ": " ++ short_name.

(** Lines 146 and 148:
    [f"\t More in 1: {short_name} {len(...)} > {len(...)}"] and the same
    for 2 *)
Definition grouped_more_line (side short_name : string) (more less : nat)
  : string :=
  tab ++ " More in " ++ side ++ ": " ++ short_name ++ " "
  ++ PyStr.of_nat more ++ " > " ++ PyStr.of_nat less.

(** Lines 142-152: the body of the second loop over a directory. *)
Definition grouped_line {A} (tests tests2 : dict (list A))
  (test_name : string) : list string :=
  let short_name := short_name_of test_name in
  let n1 := List.length (item tests test_name) in
  let n2 := List.length (item tests2 test_name) in
  if mem tests test_name then
    if mem tests2 test_name then
      (if (n2 <? n1)%nat
       then [grouped_more_line "1" short_name n1 n2]
       else [])
      ++ (if (n1 <? n2)%nat
          then [grouped_more_line "2" short_name n2 n1]
          else [])
    else [grouped_only_line "1" short_name]
  else if mem tests2 test_name
       then [grouped_only_line "2" short_name]
       else [].

(** [list(tests.keys() | tests2.keys())] followed by [sort()] *)
Definition all_distinct_tests_of {A} (tests tests2 : dict (list A))
  : list string :=
  PyStr.sort
    (keys tests ++ filter (fun k => negb (mem tests k)) (keys tests2)).

(** One turn of the loop over the directories of the first group. *)
Definition directory_block {A} (testsgroup2 : dict (dict (list A)))
  (directory_name : string) (tests : dict (list A)) : list string :=
  let tests2 := match lookup testsgroup2 directory_name with
                | Some tests2 => tests2
                | None => []
                end in
  let all_distinct_tests := all_distinct_tests_of tests tests2 in
  let found := existsb (differs tests tests2) all_distinct_tests in
  if negb found then []
  else directory_line directory_name
       :: flat_map (grouped_line tests tests2) all_distinct_tests.

Definition print_grouped_by_dir {A} (tests1 tests2 : dict (list A))
  : list string :=
  let testsgroup1 := group_test_by_directory tests1 in
  let testsgroup2 := group_test_by_directory tests2 in
  flat_map (fun dt => directory_block testsgroup2 (fst dt) (snd dt))
           testsgroup1.

(** ** The command line *)

Module Args.

(** The two options with a [type]. *)
Inductive typed_option : Type :=
| TimeAbs
| TimeRatio.

(** What [argparse] found on the command line, before the [type] of each
    option is applied: the flags, the files, and in [raw_values] every
    occurrence of [--time-abs] and [--time-ratio] with its text, in the
    order of the command line. *)
Record raw_t : Type := {
  raw_b : bool;
  raw_group : bool;
  raw_time : bool;
  raw_values : list (typed_option * string);
  raw_zero_first : bool;
  raw_files : list string
}.

Record t : Type := {
  b : bool;
  group : bool;
  time : bool;
  time_abs : Z;
  time_ratio : PyNum.float;
  zero_first : bool;
  first_file : string;
  other_files : list string
}.

(** [--time-abs]: [type=int, default=3] *)
Definition time_abs_default : Z := 3.

Definition time_abs_of (given : option string) : result Z :=
  match given with
  | None => Ok time_abs_default
  | Some text =>
      match PyNum.int text with
      | Some z => Ok z
      | None => Raise (ArgumentError text)
      end
  end.

(** [--time-ratio]: [type=float, default=1.5]; 1.5 is 3 * 2^51 * 2^-52. *)
Definition time_ratio_default : PyNum.float :=
  S754_finite false 6755399441055744 (-52).

Definition time_ratio_of (float_of_string : string -> option PyNum.float)
  (given : option string) : result PyNum.float :=
  match given with
  | None => Ok time_ratio_default
  | Some text =>
      match float_of_string text with
      | Some r => Ok r
      | None => Raise (ArgumentError text)
      end
  end.

(** [argparse] applies the [type] of an option to each of its occurrences
    as it meets them, from left to right: the first text that its [type]
    rejects stops the run, and of the accepted texts of an option the last
    one counts. *)
Fixpoint convert_values (float_of_string : string -> option PyNum.float)
  (values : list (typed_option * string)) (time_abs : Z)
  (time_ratio : PyNum.float) : result (Z * PyNum.float) :=
  match values with
  | [] => Ok (time_abs, time_ratio)
  | (TimeAbs, text) :: values' =>
      time_abs <- time_abs_of (Some text) ;;
      convert_values float_of_string values' time_abs time_ratio
  | (TimeRatio, text) :: values' =>
      time_ratio <- time_ratio_of float_of_string (Some text) ;;
      convert_values float_of_string values' time_abs time_ratio
  end.

(** The options are converted first, starting from the defaults; that
    [files] has no value is found at the end of the command line. *)
Definition parse_args (float_of_string : string -> option PyNum.float)
  (raw : raw_t) : result t :=
  converted <- convert_values float_of_string (raw_values raw)
                 time_abs_default time_ratio_default ;;
  match raw_files raw with
  | [] => Raise (ArgumentError "files")
  | file :: files =>
      Ok {| b := raw_b raw; group := raw_group raw; time := raw_time raw;
            time_abs := fst converted; time_ratio := snd converted;
            zero_first := raw_zero_first raw;
            first_file := file; other_files := files |}
  end.

(** The occurrences whose text the [type] of the option accepts. *)
Definition converts (float_of_string : string -> option PyNum.float)
  (value : typed_option * string) : bool :=
  match value with
  | (TimeAbs, text) =>
      match PyNum.int text with Some _ => true | None => false end
  | (TimeRatio, text) =>
      match float_of_string text with Some _ => true | None => false end
  end.

End Args.

Section Get.

Variable float_of_string : string -> option PyNum.float.

(** [ET.parse(file).getroot().iter('test')]: the attributes of the [test]
    elements of a file, or the error of the parser. *)
Variable parse : string -> result (list attrib_t).

(** Lines 203-206: the remaining files are loaded and merged in turn. *)
Fixpoint load_group2 (drop2 canon : list string) (tests2 : tests_t)
  (files : list string) : result (tests_t * list string) :=
  match files with
  | [] => Ok (tests2, [])
  | file :: files' =>
      root <- parse file ;;
      loaded <- load float_of_string file root drop2 canon false ;;
      rest <- load_group2 drop2 canon
                (update_dict_list tests2 (fst loaded)) files' ;;
      Ok (fst rest, snd loaded ++ snd rest)
  end.

Definition total_line (label : string) (tests : tests_t) : string :=
  ("Total in " ++ label ++ ": "
   ++ PyNum.format_2f
        (PyNum.sum (map (fun v => PyNum.sum (map snd v)) (values tests))))%string.

Definition count_line (label : string) (tests : tests_t) : string :=
  ("group " ++ label ++ " has " ++ PyStr.of_nat (List.length tests)
   ++ " entries and " ++ PyStr.of_nat (test_count tests) ++ " tests")%string.

(** [get], from the parsed arguments on.  The output is what the run
    prints when no exception is raised. *)
Definition get_parsed (cmd_args : Args.t) : result (list string) :=
  let time_abs :=
    if Args.zero_first cmd_args then 0%Z else Args.time_abs cmd_args in
  let config :=
    nth (if Args.b cmd_args then 1 else 0) configs
        {| drop1 := []; drop2 := []; canon := [] |} in
  root1 <- parse (Args.first_file cmd_args) ;;
  loaded1 <- load float_of_string (Args.first_file cmd_args) root1
               (drop1 config) (canon config) (Args.zero_first cmd_args) ;;
  loaded2 <- load_group2 (drop2 config) (canon config) []
               (Args.other_files cmd_args) ;;
  let tests1 := fst loaded1 in
  let tests2 := fst loaded2 in
  Ok (snd loaded1 ++ snd loaded2
      ++ [count_line "1" tests1; count_line "2" tests2]
      ++ (if Args.group cmd_args
          then print_grouped_by_dir tests1 tests2
          else print_diff tests1 tests2 "1" ++ print_diff tests2 tests1 "2")
      ++ (if Args.time cmd_args
          then print_time_diff tests1 tests2 "1" time_abs
                 (Args.time_ratio cmd_args)
               ++ print_time_diff tests2 tests1 "2" time_abs
                    (Args.time_ratio cmd_args)
               ++ [total_line "1" tests1; total_line "2" tests2]
          else [])).

Definition get (raw : Args.raw_t) : result (list string) :=
  cmd_args <- Args.parse_args float_of_string raw ;;
  get_parsed cmd_args.

End Get.

(** ** Notions used in the statements *)

(** The canonical key of a raw name: the value of [canon_name] when line 54
    of [load] stores the record. *)
Definition canonical_key (canon : list string) (name : string) : string :=
  collapse canon (normalize name).

(** The capital letters A-Z. *)
Definition is_capital (c : ascii) : bool :=
  let n := N_of_ascii c in ((65 <=? n) && (n <=? 90))%N%bool.

(** Some character of [s] satisfies [p]. *)
Fixpoint has_char (p : ascii -> bool) (s : string) : bool :=
  match s with
  | EmptyString => false
  | String c s' => p c || has_char p s'
  end.

(** The entries on which [load] raises: no [name]; or, for an entry that
    is not dropped while times are not zeroed, no [time] or a [time] that
    [float] rejects. *)
Definition fatal (float_of_string : string -> option PyNum.float)
  (drop : list string) (zero : bool) (attrib : attrib_t) : Prop :=
  lookup attrib "name" = None
  \/ exists name,
      lookup attrib "name" = Some name
      /\ dropped drop (normalize name) = false
      /\ zero = false
      /\ (lookup attrib "time" = None
          \/ exists text, lookup attrib "time" = Some text
                          /\ float_of_string text = None).

(** What the loader guarantees of a record stored under key [k]. *)
Definition loaded_record (drop canon : list string) (zero : bool)
  (k : string) (r : record) : Prop :=
  k = canonical_key canon (fst r)
  /\ dropped drop (normalize (fst r)) = false
  /\ (zero = true -> snd r = PyNum.zero).

(** Every key of a group holds at least one record, and every record
    satisfies [Q] of its key. *)
Definition group_inv {A} (Q : string -> A -> Prop) (d : dict (list A))
  : Prop :=
  Forall (fun kv => snd kv <> [] /\ Forall (Q (fst kv)) (snd kv)) d.

(** The keys of [tests1] that [print_diff tests1 tests2] reports: those
    absent from [tests2] or with more records in [tests1]. *)
Definition reports {A} (tests1 tests2 : dict (list A)) (k : string) : bool :=
  negb (mem tests2 k)
  || (List.length (item tests2 k) <? List.length (item tests1 k))%nat.

(** The line that [print_diff] prints for a reported key. *)
Definition finding {A} (tests1 tests2 : dict (list A)) (label k : string)
  : string :=
  if mem tests2 k
  then more_in_line label k (List.length (item tests1 k))
         (List.length (item tests2 k))
  else only_in_line label k.

(** A key that is in one group only, or in both with unequal counts. *)
Definition mismatch {A} (tests1 tests2 : dict (list A)) (k : string) : Prop :=
  (mem tests1 k = true /\ mem tests2 k = false)
  \/ (mem tests1 k = false /\ mem tests2 k = true)
  \/ (mem tests1 k = true /\ mem tests2 k = true
      /\ List.length (item tests1 k) <> List.length (item tests2 k)).

(** The keys that [print_diff tests1 tests2] reports, in the order of the
    loop. *)
Definition reported_keys {A} (tests1 tests2 : dict (list A)) : list string :=
  filter (reports tests1 tests2) (PyStr.sort (keys tests1)).

(** The part of a group that lies in directory [d]. *)
Definition in_dir (d : string) (test_name : string) : bool :=
  String.eqb (test_dir_of test_name) d.

Definition under_dir {A} (d : string) (tests : dict (list A))
  : dict (list A) :=
  filter (fun kv => in_dir d (fst kv)) tests.

(** The keys of directory [d] in either group, as the second loop of
    [print_grouped_by_dir] visits them. *)
Definition names_under {A} (tests1 tests2 : dict (list A)) (d : string)
  : list string :=
  all_distinct_tests_of (under_dir d tests1) (under_dir d tests2).

(** The block that [print_grouped_by_dir] prints for directory [d]. *)
Definition block_of {A} (tests1 tests2 : dict (list A)) (d : string)
  : list string :=
  if existsb (differs tests1 tests2) (names_under tests1 tests2 d)
  then directory_line d
       :: flat_map (grouped_line tests1 tests2) (names_under tests1 tests2 d)
  else [].

(** One turn of the loop of [group_test_by_directory] stores the test in
    the dictionary of its directory. *)
Definition group_step {A} (tests_by_dir : dict (dict (list A)))
  (kv : string * list A) : dict (dict (list A)) :=
  let test_dir := test_dir_of (fst kv) in
  set tests_by_dir test_dir
    (set (match lookup tests_by_dir test_dir with
          | Some inner => inner
          | None => []
          end) (fst kv) (snd kv)).

(** ** Sample inputs *)

(** The floats 1.0, 0.5 and 0.6, and a reader for their usual spellings. *)
Definition float_1_0 : PyNum.float := S754_finite false 4503599627370496 (-52).
Definition float_0_5 : PyNum.float := S754_finite false 4503599627370496 (-53).
Definition float_0_6 : PyNum.float := S754_finite false 5404319552844595 (-53).

Definition sample_float (s : string) : option PyNum.float :=
  if String.eqb s "1.0" then Some float_1_0
  else if String.eqb s "0.5" then Some float_0_5
  else if String.eqb s "0.6" then Some float_0_6
  else None.

(** A [test] element with both attributes, and one without [time]. *)
Definition entry (name time : string) : attrib_t :=
  [("name", name); ("time", time)].

Definition entry_without_time (name : string) : attrib_t :=
  [("name", name)].

(** The first profile. *)
Definition profile1 : config_t :=
  nth 0 configs {| drop1 := []; drop2 := []; canon := [] |}.

(** The groups of the scenario: one record of 1.0 seconds in group 1, two
    records of 0.5 and 0.6 seconds in group 2, all under the key [a\x\t1]. *)
Definition scenario_group1 : tests_t :=
  [("a\x\t1", [("a\\x\\t1.dll", float_1_0)])].

Definition scenario_group2 : tests_t :=
  [("a\x\t1", [("A\x\T1.cmd", float_0_5); ("a\x\t1.dll", float_0_6)])].

(** The files of the scenario: [f1] for group 1, [f2] and [f3] for
    group 2. *)
Definition scenario_parse (file : string) : result (list attrib_t) :=
  if String.eqb file "f1" then Ok [entry "a\\x\\t1.dll" "1.0"]
  else if String.eqb file "f2" then Ok [entry "A\x\T1.cmd" "0.5"]
  else if String.eqb file "f3" then Ok [entry "a\x\t1.dll" "0.6"]
  else Raise (ParseError file).

Definition scenario_args : Args.raw_t :=
  {| Args.raw_b := false; Args.raw_group := false; Args.raw_time := true;
     Args.raw_values := [];
     Args.raw_zero_first := false; Args.raw_files := ["f1"; "f2"; "f3"] |}.

(** A group whose only key has the time 0. *)
Definition zero_group : tests_t := [("a\x\t1", [("a\x\t1", PyNum.zero)])].

(** Two groups over the directories [a], [y] and [z], and a group whose two
    keys lie in the directory with the empty name. *)
Definition grouped_sample1 : dict (list nat) :=
  [("a\b\c", [1]); ("a\b\d", [1]); ("z\b\c", [1; 2]); ("a\b\e", [1]);
   ("y\b\c", [1])].

Definition grouped_sample2 : dict (list nat) :=
  [("a\b\c", [1; 2]); ("a\b\d", [1]); ("z\b\c", [1]); ("a\b\f", [1]);
   ("y\b\c", [2])].

Definition rootless_sample : dict (list nat) :=
  [("\x\a", [1]); ("a", [1])].

(** ** Notions used for the remaining code *)

(** The entries that [load] stores: those with a name that the drop filter
    lets through. *)
Definition kept (drop : list string) (attrib : attrib_t) : bool :=
  match lookup attrib "name" with
  | Some name => negb (dropped drop (normalize name))
  | None => false
  end.

(** The raw names that [load] stores under the key [k], in document
    order. *)
Definition stored_names (drop canon : list string) (k : string)
  (root : list attrib_t) : list string :=
  flat_map
    (fun attrib =>
       match lookup attrib "name" with
       | Some name =>
           if (negb (dropped drop (normalize name))
               && String.eqb (canonical_key canon name) k)%bool
           then [name] else []
       | None => []
       end) root.

(** The profile that [get] selects. *)
Definition active_config (cmd_args : Args.t) : config_t :=
  nth (if Args.b cmd_args then 1 else 0) configs
      {| drop1 := []; drop2 := []; canon := [] |}.

(** A file that [get] can load: it parses and none of its entries makes
    [load] raise. *)
Definition loadable (float_of_string : string -> option PyNum.float)
  (parse : string -> result (list attrib_t)) (drop : list string)
  (zero : bool) (file : string) : Prop :=
  exists root,
    parse file = Ok root
    /\ forall attrib, In attrib root ->
                      ~ fatal float_of_string drop zero attrib.

(** Sample inputs for the remaining code. *)
Definition merge_base : dict (list nat) := [("a", [1; 2]); ("b", [3])].
Definition merge_new : dict (list nat) := [("c", [4]); ("d", [5; 6])].

Definition zeroed_group1 : tests_t :=
  [("a\x\t1", [("a\\x\\t1.dll", PyNum.zero)])].

Definition sample_cmd_args : Args.t :=
  {| Args.b := false; Args.group := false; Args.time := true;
     Args.time_abs := 3; Args.time_ratio := Args.time_ratio_default;
     Args.zero_first := false; Args.first_file := "f1";
     Args.other_files := ["f2"; "f3"] |}.

(** * Properties *)

(** ** Strings *)

Lemma prefix_iff_append (d s : string) :
  prefix d s = true <-> exists b, s = (d ++ b)%string.
Proof.
  revert s; induction d as [|a d IH]; intros s.
  - split; [intros _; now exists s | intros _; now destruct s].
  - destruct s as [|c s]; simpl.
    + split; [discriminate | intros [b Hb]; discriminate].
    + destruct (ascii_dec a c) as [->|Hne].
      * rewrite IH. split; intros [b Hb]; exists b.
        -- now rewrite Hb.
        -- now injection Hb.
      * split; [discriminate | intros [b Hb]; injection Hb; congruence].
Qed.

Lemma contains_iff_append (d s : string) :
  PyStr.contains d s = true <-> exists a b, s = (a ++ d ++ b)%string.
Proof.
  induction s as [|c s IH].
  - cbn [PyStr.contains]. rewrite orb_false_r, prefix_iff_append. split.
    + intros [b Hb]. now exists EmptyString, b.
    + intros [a [b Hab]]. destruct a; [now exists b | discriminate].
  - cbn [PyStr.contains]. rewrite orb_true_iff, prefix_iff_append, IH. split.
    + intros [[b Hb] | [a [b Hab]]].
      * now exists EmptyString, b.
      * exists (String c a), b. simpl. now rewrite Hab.
    + intros [a [b Hab]]. destruct a as [|c' a].
      * left. now exists b.
      * right. injection Hab as _ Hs. now exists a, b.
Qed.

Lemma append_assoc (a b c : string) :
  ((a ++ b) ++ c = a ++ (b ++ c))%string.
Proof. induction a; simpl; congruence. Qed.

Lemma contains_refl (s : string) : PyStr.contains s s = true.
Proof.
  destruct s; simpl; [reflexivity|].
  destruct (ascii_dec a a); [|congruence].
  replace (prefix s s) with true; [reflexivity|].
  symmetry. apply prefix_iff_append. exists EmptyString.
  induction s; simpl; congruence.
Qed.

(** Occurrence is transitive: what occurs in a part occurs in the whole. *)
Lemma contains_trans (d c s : string) :
  PyStr.contains d c = true -> PyStr.contains c s = true ->
  PyStr.contains d s = true.
Proof.
  rewrite !contains_iff_append.
  intros [a1 [b1 ->]] [a2 [b2 ->]].
  exists (a2 ++ a1)%string, (b1 ++ b2)%string.
  now rewrite !append_assoc.
Qed.

(** The drop test passes from a list entry to any name it occurs in. *)
Lemma dropped_mono (drop : list string) (c s : string) :
  PyStr.contains c s = true -> dropped drop c = true -> dropped drop s = true.
Proof.
  intros Hc. unfold dropped. rewrite !existsb_exists.
  intros [d [Hin Hd]]. exists d. split; [assumption|].
  eapply contains_trans; eassumption.
Qed.

(** [collapse] returns the name itself or an entry that occurs in it. *)
Lemma collapse_contains (canon : list string) (s : string) :
  PyStr.contains (collapse canon s) s = true.
Proof.
  induction canon as [|c canon IH]; simpl.
  - apply contains_refl.
  - destruct (PyStr.contains c s) eqn:E; assumption.
Qed.

Lemma collapse_cases (canon : list string) (s : string) :
  collapse canon s = s
  \/ (In (collapse canon s) canon
      /\ PyStr.contains (collapse canon s) s = true).
Proof.
  induction canon as [|c canon IH]; simpl.
  - now left.
  - destruct (PyStr.contains c s) eqn:E.
    + right. split; [now left | assumption].
    + destruct IH as [IH | [IH1 IH2]]; [now left | right; split; auto].
Qed.

(** [str.lower] leaves no capital ASCII letter behind. *)
Lemma lower_char_not_capital (c : ascii) :
  is_capital (PyStr.lower_char c) = false.
Proof.
  destruct c as [[] [] [] [] [] [] [] []]; reflexivity.
Qed.

Lemma lower_no_capital (s : string) :
  has_char is_capital (PyStr.lower s) = false.
Proof.
  induction s as [|c s IH]; simpl; [reflexivity|].
  now rewrite lower_char_not_capital, IH.
Qed.

Lemma has_char_append (p : ascii -> bool) (a b : string) :
  has_char p (a ++ b) = has_char p a || has_char p b.
Proof.
  induction a as [|c a IH]; simpl; [reflexivity|].
  now rewrite IH, orb_assoc.
Qed.

Lemma contains_has_char (p : ascii -> bool) (d s : string) :
  PyStr.contains d s = true -> has_char p d = true -> has_char p s = true.
Proof.
  rewrite contains_iff_append. intros [a [b ->]] Hd.
  rewrite !has_char_append, Hd. now rewrite orb_true_r.
Qed.

Lemma normalize_no_capital (name : string) :
  has_char is_capital (normalize name) = false.
Proof. unfold normalize. apply lower_no_capital. Qed.

(** ** Dictionaries *)

Section DictFacts.
Context {V : Type}.
Implicit Types (d : dict V) (k : string) (v : V).

Lemma get_set_same d k v : lookup (set d k v) k = Some v.
Proof.
  induction d as [|[k' v'] d IH]; simpl.
  - now rewrite String.eqb_refl.
  - destruct (String.eqb k k') eqn:E; simpl; rewrite E; auto.
Qed.

Lemma get_set_other d k k' v : k' <> k -> lookup (set d k v) k' = lookup d k'.
Proof.
  intros Hne. apply String.eqb_neq in Hne.
  induction d as [|[k0 v0] d IH]; simpl.
  - now rewrite Hne.
  - destruct (String.eqb k k0) eqn:E; simpl.
    + apply String.eqb_eq in E. subst k0. now rewrite Hne.
    + now rewrite IH.
Qed.

Lemma get_Some_In d k v : lookup d k = Some v -> In (k, v) d.
Proof.
  induction d as [|[k' v'] d IH]; simpl; [discriminate|].
  destruct (String.eqb k k') eqn:E.
  - apply String.eqb_eq in E. intros [= <-]. left. congruence.
  - intros H. right. auto.
Qed.

Lemma get_None_iff d k : lookup d k = None <-> ~ In k (keys d).
Proof.
  induction d as [|[k' v'] d IH]; simpl; [tauto|].
  destruct (String.eqb k k') eqn:E.
  - apply String.eqb_eq in E. split; [discriminate | intros H; exfalso; auto].
  - apply String.eqb_neq in E. rewrite IH. split; intros H; [|tauto].
    intros [H1|H1]; [congruence | tauto].
Qed.

Lemma mem_iff d k : mem d k = true <-> In k (keys d).
Proof.
  unfold mem. destruct (lookup d k) eqn:E.
  - split; [intros _ | reflexivity].
    apply get_Some_In in E. apply (in_map fst) in E. exact E.
  - apply get_None_iff in E. split; [discriminate | tauto].
Qed.

Lemma In_get d k v : wf d -> In (k, v) d -> lookup d k = Some v.
Proof.
  unfold wf. induction d as [|[k' v'] d IH]; simpl; [tauto|].
  intros Hnd [H|H].
  - injection H as -> ->. now rewrite String.eqb_refl.
  - inversion Hnd as [|? ? Hnotin Hnd']; subst.
    destruct (String.eqb k k') eqn:E.
    + apply String.eqb_eq in E. subst k'. exfalso. apply Hnotin.
      apply (in_map fst) in H. exact H.
    + auto.
Qed.

Lemma set_In d k v kv : In kv (set d k v) -> kv = (k, v) \/ In kv d.
Proof.
  induction d as [|[k' v'] d IH]; simpl.
  - intros [H|[]]; auto.
  - destruct (String.eqb k k') eqn:E; simpl.
    + apply String.eqb_eq in E. subst k'. intros [H|H]; auto.
    + intros [H|H]; auto. destruct (IH H); auto.
Qed.

Lemma keys_set d k v :
  keys (set d k v) = if mem d k then keys d else keys d ++ [k].
Proof.
  unfold mem. induction d as [|[k' v'] d IH]; simpl; [reflexivity|].
  destruct (String.eqb k k') eqn:E; simpl; [reflexivity|].
  rewrite IH. now destruct (lookup d k).
Qed.

Lemma set_notin d k v : ~ In k (keys d) -> set d k v = d ++ [(k, v)].
Proof.
  induction d as [|[k' v'] d IH]; simpl; [reflexivity|].
  intros H. destruct (String.eqb k k') eqn:E.
  - apply String.eqb_eq in E. subst. exfalso. auto.
  - f_equal. apply IH. tauto.
Qed.

Lemma wf_set d k v : wf d -> wf (set d k v).
Proof.
  unfold wf. rewrite keys_set. intros H.
  destruct (mem d k) eqn:E; [assumption|].
  apply NoDup_app; [assumption | repeat constructor; simpl; tauto |].
  intros x Hx [<-|[]]. apply mem_iff in Hx. congruence.
Qed.

Lemma set_set d k v v' : set (set d k v) k v' = set d k v'.
Proof.
  induction d as [|[k0 v0] d IH]; simpl.
  - now rewrite String.eqb_refl.
  - destruct (String.eqb k k0) eqn:E; simpl; rewrite E; congruence.
Qed.

Lemma set_Forall (P : string * V -> Prop) d k v :
  Forall P d -> P (k, v) -> Forall P (set d k v).
Proof.
  intros Hd Hkv. apply Forall_forall. intros kv Hin.
  destruct (set_In _ _ _ _ Hin) as [->|H]; [assumption|].
  rewrite Forall_forall in Hd. auto.
Qed.

End DictFacts.

(** ** The loader *)

Lemma add_dict_list_item_inv {A} (Q : string -> A -> Prop)
  (d : dict (list A)) (k : string) (x : A) :
  group_inv Q d -> Q k x -> group_inv Q (add_dict_list_item d k x).
Proof.
  unfold group_inv, add_dict_list_item, setdefault. intros Hd Hx.
  destruct (lookup d k) as [old|] eqn:E.
  - apply set_Forall; [assumption|]. simpl.
    apply get_Some_In in E. rewrite Forall_forall in Hd.
    destruct (Hd _ E) as [_ Hold]. simpl in Hold. split.
    + intros H. now apply app_eq_nil in H as [_ H].
    + apply Forall_app. auto.
  - rewrite set_set. apply set_Forall; [assumption|]. simpl.
    split; [discriminate | repeat constructor; assumption].
Qed.

Section LoaderFacts.
Variable float_of_string : string -> option PyNum.float.
Variables drop canon : list string.
Variable zero : bool.

Lemma read_time_zero attrib t :
  read_time float_of_string attrib zero = Ok t ->
  zero = true -> t = PyNum.zero.
Proof. intros H ->. simpl in H. congruence. Qed.

Lemma load_test_inv tests attrib tests' :
  group_inv (loaded_record drop canon zero) tests ->
  load_test float_of_string drop canon zero tests attrib = Ok tests' ->
  group_inv (loaded_record drop canon zero) tests'.
Proof.
  unfold load_test. intros Hinv.
  destruct (lookup attrib "name") as [name|]; [|discriminate].
  destruct (dropped drop (normalize name)) eqn:Hdrop.
  - now intros [= <-].
  - destruct (read_time float_of_string attrib zero) as [t|e] eqn:Ht;
      simpl; [|discriminate].
    intros [= <-]. apply add_dict_list_item_inv; [assumption|].
    repeat split; simpl; auto.
    intros Hz. eapply read_time_zero; eassumption.
Qed.

Lemma load_tests_inv root : forall tests tests',
  group_inv (loaded_record drop canon zero) tests ->
  load_tests float_of_string drop canon zero tests root = Ok tests' ->
  group_inv (loaded_record drop canon zero) tests'.
Proof.
  induction root as [|attrib root IH]; simpl; intros tests tests' Hinv.
  - now intros [= <-].
  - destruct (load_test float_of_string drop canon zero tests attrib)
      as [tests1|e] eqn:E; simpl; [|discriminate].
    apply IH. eapply load_test_inv; eassumption.
Qed.

Lemma load_inv file root tests out :
  load float_of_string file root drop canon zero = Ok (tests, out) ->
  group_inv (loaded_record drop canon zero) tests.
Proof.
  unfold load.
  destruct (load_tests float_of_string drop canon zero [] root)
    as [tests1|e] eqn:E; simpl; [|discriminate].
  intros [= <- _]. eapply load_tests_inv; [|eassumption]. constructor.
Qed.

(** A record whose canonical key holds a drop substring is skipped:
    the substring then occurs in the normalized name as well. *)
Lemma load_test_dropped tests attrib name :
  lookup attrib "name" = Some name ->
  dropped drop (canonical_key canon name) = true ->
  load_test float_of_string drop canon zero tests attrib = Ok tests.
Proof.
  intros Hname Hdrop. unfold load_test. rewrite Hname.
  erewrite dropped_mono; [reflexivity | | exact Hdrop].
  apply collapse_contains.
Qed.

Lemma load_test_raises tests attrib :
  (exists e, load_test float_of_string drop canon zero tests attrib = Raise e)
  <-> fatal float_of_string drop zero attrib.
Proof.
  unfold load_test, fatal, read_time.
  destruct (lookup attrib "name") as [name|].
  2: { split; [now left | intros _; eexists; reflexivity]. }
  destruct (dropped drop (normalize name)) eqn:Hdrop.
  { split; [intros [e He]; discriminate|].
    intros [H|[n [[= <-] [H _]]]]; congruence. }
  destruct zero.
  { simpl. split; [intros [e He]; discriminate|].
    intros [H|[n [_ [_ [H _]]]]]; discriminate. }
  destruct (lookup attrib "time") as [text|].
  2: { simpl. split; [|intros _; eexists; reflexivity].
       intros _. right. exists name. auto. }
  destruct (float_of_string text) as [t|] eqn:Hf; simpl.
  - split; [intros [e He]; discriminate|].
    intros [H|[n [_ [_ [_ [H|[tx [[= <-] H]]]]]]]]; congruence.
  - split; [|intros _; eexists; reflexivity].
    intros _. right. exists name. repeat split; auto.
    right. exists text. auto.
Qed.

Lemma load_tests_raises root : forall tests,
  (exists e, load_tests float_of_string drop canon zero tests root = Raise e)
  <-> exists attrib, In attrib root /\ fatal float_of_string drop zero attrib.
Proof.
  induction root as [|attrib root IH]; simpl; intros tests.
  - split; [intros [e He]; discriminate | intros [a [[] _]]].
  - destruct (load_test float_of_string drop canon zero tests attrib)
      as [tests1|e] eqn:E; simpl.
    + rewrite IH. split.
      * intros [a [Hin Hf]]. exists a. auto.
      * intros [a [[<-|Hin] Hf]]; [|exists a; auto].
        apply load_test_raises with (tests := tests) in Hf.
        destruct Hf as [e He]. congruence.
    + split; [|intros _; eexists; reflexivity].
      intros _. exists attrib. split; [now left|].
      apply load_test_raises with (tests := tests). eauto.
Qed.

End LoaderFacts.

(** ** Canonical keys *)

Lemma collapse_idempotent (canon : list string) (s : string) :
  collapse canon (collapse canon s) = collapse canon s.
Proof.
  induction canon as [|c canon IH]; simpl; [reflexivity|].
  destruct (PyStr.contains c s) eqn:E.
  - simpl. now rewrite contains_refl.
  - simpl. destruct (PyStr.contains c (collapse canon s)) eqn:E'.
    + pose proof (contains_trans _ _ _ E' (collapse_contains canon s)).
      congruence.
    + exact IH.
Qed.

Lemma dropped_canonical_key (drop canon : list string) (name : string) :
  dropped drop (normalize name) = false ->
  dropped drop (canonical_key canon name) = false.
Proof.
  intros H. destruct (dropped drop (canonical_key canon name)) eqn:E;
    [|reflexivity].
  rewrite <- H. symmetry. eapply dropped_mono; [|exact E].
  apply collapse_contains.
Qed.

(** The entry with capital letters occurs in no normalized name. *)
Lemma canon_b323557_not_contained (name : string) :
  PyStr.contains canon_b323557 (normalize name) = false.
Proof.
  destruct (PyStr.contains canon_b323557 (normalize name)) eqn:E;
    [|reflexivity].
  apply (contains_has_char is_capital) in E; [|reflexivity].
  now rewrite normalize_no_capital in E.
Qed.

Lemma canonical_key_not_b323557 (canon : list string) (name : string) :
  canonical_key canon name <> canon_b323557.
Proof.
  unfold canonical_key. intros Heq.
  destruct (collapse_cases canon (normalize name)) as [H|[_ H]].
  - pose proof (normalize_no_capital name) as Hn.
    rewrite <- H, Heq in Hn. discriminate.
  - rewrite Heq, canon_b323557_not_contained in H. discriminate.
Qed.

Lemma replace_double_backslash_noop (s : string) :
  PyStr.contains "\\" s = false -> PyStr.replace_double_backslash s = s.
Proof.
  induction s as [|a s IH]; [reflexivity|].
  cbn [PyStr.contains]. intros H. apply orb_false_iff in H as [Hp Hc].
  cbn [PyStr.replace_double_backslash]. destruct s as [|b r]; [reflexivity|].
  destruct (Ascii.eqb_spec a PyStr.backslash) as [->|Ha];
    [destruct (Ascii.eqb_spec b PyStr.backslash) as [->|Hb]|]; simpl andb.
  - exfalso. revert Hp. unfold PyStr.backslash. simpl.
    destruct r; discriminate.
  - now rewrite (IH Hc).
  - now rewrite (IH Hc).
Qed.

Lemma normalize_noop (k : string) :
  PyStr.contains "\\" k = false ->
  PyStr.endswith k ".dll" = false ->
  PyStr.endswith k ".cmd" = false ->
  PyStr.lower k = k ->
  normalize k = k.
Proof.
  intros Hb Hd Hc Hl. unfold normalize.
  rewrite (replace_double_backslash_noop k Hb), Hd, Hc. exact Hl.
Qed.

(** ** The loader: drop filter, errors and canonical keys *)

(** C1 (amended).  The drop filter is checked on the normalized name
    (doubled backslashes undone, extension removed, lower case) and before
    the name is collapsed onto an entry of the canonicalization list.  For
    every loaded group: no key of the group holds a substring of the drop
    list, and every record of the group is stored under its canonical key,
    which, like its normalized name, holds no substring of the drop list,
    however many records share the key. *)
Theorem load_drop_exclusive
  (float_of_string : string -> option PyNum.float) (file : string)
  (root : list attrib_t) (drop canon : list string) (zero : bool)
  (tests : tests_t) (out : list string) :
  load float_of_string file root drop canon zero = Ok (tests, out) ->
  (forall k, In k (keys tests) -> dropped drop k = false)
  /\ (forall k records r,
        lookup tests k = Some records -> In r records ->
        k = canonical_key canon (fst r)
        /\ dropped drop (normalize (fst r)) = false
        /\ dropped drop (canonical_key canon (fst r)) = false).
Proof.
  intros Hload. apply load_inv in Hload. unfold group_inv in Hload.
  rewrite Forall_forall in Hload.
  assert (Hrec : forall k records r, In (k, records) tests -> In r records ->
            k = canonical_key canon (fst r)
            /\ dropped drop (normalize (fst r)) = false
            /\ dropped drop (canonical_key canon (fst r)) = false).
  { intros k records r Hin Hr. destruct (Hload _ Hin) as [_ Hall].
    rewrite Forall_forall in Hall. destruct (Hall _ Hr) as [Hk [Hd _]].
    simpl in Hk. auto using dropped_canonical_key. }
  split.
  - intros k Hk. apply in_map_iff in Hk as [[k' records] [<- Hin]].
    destruct (Hload _ Hin) as [Hne _]. simpl in *.
    destruct records as [|r records]; [congruence|].
    destruct (Hrec k' (r :: records) r Hin (or_introl eq_refl)) as [-> [_ H]].
    exact H.
  - intros k records r Hk. apply get_Some_In in Hk. now apply Hrec.
Qed.

Lemma load_drop_exclusive_witness :
  (forall k,
      In k (keys [("a\x\t1", [("a\\x\t1.dll", float_1_0)])]) ->
      dropped (drop1 profile1) k = false)
  /\ (forall k records r,
        lookup [("a\x\t1", [("a\\x\t1.dll", float_1_0)])] k = Some records ->
        In r records ->
        k = canonical_key (canon profile1) (fst r)
        /\ dropped (drop1 profile1) (normalize (fst r)) = false
        /\ dropped (drop1 profile1) (canonical_key (canon profile1) (fst r))
           = false).
Proof.
  apply (load_drop_exclusive sample_float "f"
           [entry "a\\x\t1.dll" "1.0"; entry "x\IL_Conformance\y" "0.5"]
           (drop1 profile1) (canon profile1) false
           [("a\x\t1", [("a\\x\t1.dll", float_1_0)])]
           ["f has 1 entries and 1 tests"]).
  reflexivity.
Defined.

(** C1 as stated fails: under the first profile the record named
    [il_conformance\b598031] has the canonical key [b598031], which holds no
    substring of the drop list, and still the loader drops it, because the
    filter ran on the name before it was collapsed. *)
Lemma load_drops_before_collapse :
  canonical_key (canon profile1) "il_conformance\b598031" = "b598031"
  /\ dropped (drop1 profile1)
       (canonical_key (canon profile1) "il_conformance\b598031") = false
  /\ load sample_float "f" [entry "il_conformance\b598031" "1.0"]
       (drop1 profile1) (canon profile1) false
     = Ok ([], ["f has 0 entries and 0 tests"]).
Proof. repeat split. Qed.

(** C3 (amended).  [load] raises exactly when some entry has no [name],
    or is not dropped, its time is not zeroed, and it has no [time] or a
    [time] that is not numeric.  When times are zeroed the [time] attribute
    is not read: every stored time is 0 and its absence or spelling raises
    nothing. *)
Theorem load_raises_iff
  (float_of_string : string -> option PyNum.float) (file : string)
  (root : list attrib_t) (drop canon : list string) (zero : bool) :
  ((exists e, load float_of_string file root drop canon zero = Raise e)
   <-> exists attrib,
       In attrib root /\ fatal float_of_string drop zero attrib)
  /\ (forall tests out k records r,
        zero = true ->
        load float_of_string file root drop canon zero = Ok (tests, out) ->
        lookup tests k = Some records -> In r records ->
        snd r = PyNum.zero).
Proof.
  split.
  - rewrite <- (load_tests_raises float_of_string drop canon zero root []).
    unfold load.
    destruct (load_tests float_of_string drop canon zero [] root); simpl.
    + split; intros [e He]; discriminate.
    + split; intros _; eexists; reflexivity.
  - intros tests out k records r Hz Hload Hk Hr.
    apply load_inv in Hload. unfold group_inv in Hload.
    rewrite Forall_forall in Hload. apply get_Some_In in Hk.
    destruct (Hload _ Hk) as [_ Hall]. rewrite Forall_forall in Hall.
    destruct (Hall _ Hr) as [_ [_ H]]. auto.
Qed.

Lemma load_raises_iff_witness :
  (exists e,
      load sample_float "f" [entry "t" "1.0"; entry "u" "soon"] [] [] false
      = Raise e)
  /\ snd ("t", PyNum.zero) = PyNum.zero.
Proof.
  split.
  - apply (proj1 (load_raises_iff sample_float "f"
                    [entry "t" "1.0"; entry "u" "soon"] [] [] false)).
    exists (entry "u" "soon"). split; [simpl; tauto|].
    right. exists "u". repeat split. right. exists "soon". split; reflexivity.
  - apply (proj2 (load_raises_iff sample_float "f" [entry "t" "soon"] [] []
                    true)
             [("t", [("t", PyNum.zero)])] ["f has 1 entries and 1 tests"]
             "t" [("t", PyNum.zero)] ("t", PyNum.zero));
      try reflexivity.
    simpl. tauto.
Defined.

(** C3 as stated fails: with times zeroed, an entry without [time] and an
    entry whose [time] is not a number are both loaded, with time 0; and an
    entry that is dropped is never asked for its [time]. *)
Lemma load_zero_ignores_time :
  load sample_float "f" [entry_without_time "t"; entry "u" "soon"] [] [] true
  = Ok ([("t", [("t", PyNum.zero)]); ("u", [("u", PyNum.zero)])],
        ["f has 2 entries and 2 tests"])
  /\ load sample_float "f" [entry_without_time "il_conformance\t"]
       (drop1 profile1) (canon profile1) false
     = Ok ([], ["f has 0 entries and 0 tests"]).
Proof. split; reflexivity. Qed.

(** C4 (amended).  Collapsing onto the canonicalization list is idempotent
    on every canonical key.  The whole canonicalization step returns a
    canonical key unchanged whenever the normalization leaves that key
    alone, which is the case when the key holds no doubled backslash, does
    not end in [.dll] or [.cmd] and has no capital letter. *)
Theorem canonical_key_idempotent (canon : list string) (name : string) :
  let k := canonical_key canon name in
  collapse canon k = k
  /\ (normalize k = k -> canonical_key canon k = k)
  /\ (PyStr.contains "\\" k = false ->
      PyStr.endswith k ".dll" = false ->
      PyStr.endswith k ".cmd" = false ->
      PyStr.lower k = k ->
      canonical_key canon k = k).
Proof.
  intros k.
  assert (Hc : collapse canon k = k) by apply collapse_idempotent.
  assert (Hn : normalize k = k -> canonical_key canon k = k).
  { intros H. unfold canonical_key at 1. now rewrite H. }
  repeat split; auto.
  intros Hb Hd Hm Hl. apply Hn. now apply normalize_noop.
Qed.

Lemma canonical_key_idempotent_witness :
  canonical_key (canon profile1) "a\x\t1" = "a\x\t1"
  /\ canonical_key (canon profile1) "b598031" = "b598031".
Proof.
  split.
  - apply (proj1 (proj2 (canonical_key_idempotent (canon profile1)
                           "A\\x\t1.dll"))).
    reflexivity.
  - apply (proj2 (proj2 (canonical_key_idempotent (canon profile1)
                           "JIT\B598031\B598031.cmd")));
      reflexivity.
Defined.

(** C4 as stated fails: a name that ends in [.dll.dll], a name with four
    backslashes in a row and a name that ends in [.DLL] each give a
    canonical key that the canonicalization step changes again. *)
Lemma canonical_key_not_idempotent :
  canonical_key (canon profile1) "a.dll.dll" = "a.dll"
  /\ canonical_key (canon profile1) "a.dll" = "a"
  /\ canonical_key (canon profile1) "a\\\\b" = "a\\b"
  /\ canonical_key (canon profile1) "a\\b" = "a\b"
  /\ canonical_key (canon profile1) "a.DLL" = "a.dll".
Proof. repeat split. Qed.

(** C10.  The third entry of the first canonicalization list holds capital
    letters and a backspace character.  Names are put in lower case before
    the list is searched, so the entry occurs in no normalized name; no name
    is collapsed onto it, and no loaded group has it as a key. *)
Theorem canon_b323557_never_a_key :
  nth 2 (canon profile1) "" = canon_b323557
  /\ has_char is_capital canon_b323557 = true
  /\ has_char (Ascii.eqb (ascii_of_nat 8)) canon_b323557 = true
  /\ (forall name, PyStr.contains canon_b323557 (normalize name) = false)
  /\ (forall canon name, canonical_key canon name <> canon_b323557)
  /\ (forall float_of_string file root drop canon zero tests out,
        load float_of_string file root drop canon zero = Ok (tests, out) ->
        mem tests canon_b323557 = false).
Proof.
  repeat split.
  - apply canon_b323557_not_contained.
  - intros canon name. apply canonical_key_not_b323557.
  - intros fos file root drop canon zero tests out Hload.
    destruct (mem tests canon_b323557) eqn:E; [|reflexivity].
    exfalso. apply mem_iff in E.
    apply in_map_iff in E as [[k records] [Hk Hin]]. simpl in Hk. subst k.
    apply load_inv in Hload. unfold group_inv in Hload.
    rewrite Forall_forall in Hload. destruct (Hload _ Hin) as [Hne Hall].
    simpl in *. destruct records as [|r records]; [congruence|].
    inversion Hall as [|? ? [Hr _] _]; subst.
    symmetry in Hr. revert Hr. apply canonical_key_not_b323557.
Qed.

Lemma canon_b323557_never_a_key_witness :
  mem [("jit\regression\clr-x86-jit\v2.0-beta2\b323557\b323557",
        [("JIT\Regression\CLR-x86-JIT\V2.0-Beta2\b323557\b323557.cmd",
          float_1_0)])]
      canon_b323557 = false.
Proof.
  apply (proj2 (proj2 (proj2 (proj2 (proj2 canon_b323557_never_a_key))))
           sample_float "f"
           [entry "JIT\Regression\CLR-x86-JIT\V2.0-Beta2\b323557\b323557.cmd"
                  "1.0"]
           (drop1 profile1) (canon profile1) false _
           ["f has 1 entries and 1 tests"]).
  reflexivity.
Defined.

(** ** Merging *)

Section MergeFacts.
Context {A : Type}.
Implicit Types (d : dict (list A)) (k : string) (v : list A).

Lemma add_dict_list_list_eq d k v :
  add_dict_list_list d k v = set d k (item d k ++ v).
Proof.
  unfold add_dict_list_list, setdefault, item.
  destruct (lookup d k); [reflexivity | apply set_set].
Qed.

Lemma item_add_same d k v :
  item (add_dict_list_list d k v) k = item d k ++ v.
Proof.
  rewrite add_dict_list_list_eq. unfold item at 1.
  now rewrite get_set_same.
Qed.

Lemma lookup_add_other d k k' v :
  k' <> k -> lookup (add_dict_list_list d k v) k' = lookup d k'.
Proof.
  intros H. rewrite add_dict_list_list_eq. now apply get_set_other.
Qed.

Lemma mem_add d k k' v :
  mem (add_dict_list_list d k v) k' = String.eqb k' k || mem d k'.
Proof.
  unfold mem. destruct (String.eqb_spec k' k) as [->|Hne]; simpl.
  - now rewrite add_dict_list_list_eq, get_set_same.
  - now rewrite lookup_add_other.
Qed.

Lemma wf_add d k v : wf d -> wf (add_dict_list_list d k v).
Proof. rewrite add_dict_list_list_eq. apply wf_set. Qed.

Lemma item_notin d k : ~ In k (keys d) -> item d k = [].
Proof.
  intros H. apply get_None_iff in H. unfold item. now rewrite H.
Qed.

Lemma update_dict_list_item d2 : forall d1 k,
  wf d2 ->
  item (update_dict_list d1 d2) k = item d1 k ++ item d2 k.
Proof.
  unfold update_dict_list, wf.
  induction d2 as [|[k0 v0] d2 IH]; simpl; intros d1 k Hwf.
  - unfold item at 3. simpl. now rewrite app_nil_r.
  - inversion Hwf as [|? ? Hnotin Hwf']; subst.
    rewrite IH by assumption. unfold item at 4. simpl.
    destruct (String.eqb_spec k k0) as [->|Hne].
    + rewrite item_add_same, (item_notin d2 k0 Hnotin).
      now rewrite app_nil_r.
    + unfold item at 1. rewrite lookup_add_other by assumption.
      reflexivity.
Qed.

Lemma update_dict_list_mem d2 : forall d1 k,
  mem (update_dict_list d1 d2) k = mem d1 k || mem d2 k.
Proof.
  unfold update_dict_list.
  induction d2 as [|[k0 v0] d2 IH]; simpl; intros d1 k.
  - now rewrite orb_false_r.
  - rewrite IH, mem_add. unfold mem at 4. simpl.
    destruct (String.eqb k k0); simpl.
    + now rewrite orb_true_r.
    + reflexivity.
Qed.

Lemma update_dict_list_wf d2 : forall d1,
  wf d1 -> wf (update_dict_list d1 d2).
Proof.
  unfold update_dict_list.
  induction d2 as [|[k0 v0] d2 IH]; simpl; intros d1 H; [assumption|].
  apply IH. now apply wf_add.
Qed.

End MergeFacts.

(** C8.  Merging [d2] into [d1] leaves under every key the records of
    [d1] followed by those of [d2]: the length is the sum of the two
    lengths, and the keys of the result are those of either group. *)
Theorem update_dict_list_additive {A} (d1 d2 : dict (list A)) (k : string) :
  wf d2 ->
  List.length (item (update_dict_list d1 d2) k)
  = List.length (item d1 k) + List.length (item d2 k)
  /\ item (update_dict_list d1 d2) k = item d1 k ++ item d2 k
  /\ mem (update_dict_list d1 d2) k = (mem d1 k || mem d2 k).
Proof.
  intros Hwf. repeat split.
  - rewrite update_dict_list_item by assumption. apply length_app.
  - now apply update_dict_list_item.
  - apply update_dict_list_mem.
Qed.

Lemma update_dict_list_additive_witness :
  List.length
    (item (update_dict_list [("a", [1; 2]); ("b", [3])]
                            [("b", [4; 5]); ("c", [6])]) "b")
  = List.length (item [("a", [1; 2]); ("b", [3])] "b")
    + List.length (item [("b", [4; 5]); ("c", [6])] "b").
Proof.
  apply (update_dict_list_additive
           [("a", [1; 2]); ("b", [3])] [("b", [4; 5]); ("c", [6])] "b").
  unfold wf. simpl. repeat constructor; simpl; intuition discriminate.
Defined.

(** ** Sorting *)

Lemma leb_iff (a b : string) :
  PyStr.leb a b = true <-> a = b \/ PyStr.lt a b.
Proof.
  unfold PyStr.leb, PyStr.lt.
  destruct (String_as_OT.compare_spec a b) as [H|H|H].
  - tauto.
  - tauto.
  - split; [discriminate|]. intros [->|H'].
    + exfalso. revert H. apply (StrictOrder_Irreflexive (R := String_as_OT.lt)).
    + exfalso. apply (StrictOrder_Irreflexive (R := String_as_OT.lt) a).
      eapply (StrictOrder_Transitive (R := String_as_OT.lt)); eassumption.
Qed.

Lemma leb_false (a b : string) : PyStr.leb a b = false -> PyStr.lt b a.
Proof.
  unfold PyStr.leb, PyStr.lt.
  destruct (String_as_OT.compare_spec a b) as [H|H|H];
    [discriminate | discriminate | auto].
Qed.

Lemma lt_trans (a b c : string) : PyStr.lt a b -> PyStr.lt b c -> PyStr.lt a c.
Proof. apply (StrictOrder_Transitive (R := String_as_OT.lt)). Qed.

Lemma lt_irrefl (a : string) : ~ PyStr.lt a a.
Proof. apply (StrictOrder_Irreflexive (R := String_as_OT.lt)). Qed.

Lemma insert_sorted_perm (k : string) (l : list string) :
  Permutation (PyStr.insert_sorted k l) (k :: l).
Proof.
  induction l as [|x l IH]; simpl; [reflexivity|].
  destruct (PyStr.leb k x); [reflexivity|].
  rewrite IH. apply perm_swap.
Qed.

Lemma sort_perm (l : list string) : Permutation (PyStr.sort l) l.
Proof.
  induction l as [|x l IH]; simpl; [reflexivity|].
  rewrite insert_sorted_perm. now constructor.
Qed.

Lemma sort_In (l : list string) (k : string) : In k (PyStr.sort l) <-> In k l.
Proof.
  split; apply Permutation_in; [|symmetry]; apply sort_perm.
Qed.

Lemma insert_sorted_strict (k : string) (l : list string) :
  ~ In k l -> StronglySorted PyStr.lt l ->
  StronglySorted PyStr.lt (PyStr.insert_sorted k l).
Proof.
  induction l as [|x l IH]; simpl; intros Hk Hs.
  - repeat constructor.
  - inversion Hs as [|? ? Hs' Hall]; subst.
    destruct (PyStr.leb k x) eqn:E.
    + apply leb_iff in E as [->|E]; [exfalso; auto|].
      constructor; [assumption|]. constructor; [assumption|].
      eapply Forall_impl; [|exact Hall]. intros y. now apply lt_trans.
    + apply leb_false in E. constructor; [apply IH; auto|].
      apply Forall_forall. intros y Hy.
      apply (Permutation_in _ (insert_sorted_perm k l)) in Hy.
      destruct Hy as [<-|Hy]; [assumption|].
      rewrite Forall_forall in Hall. auto.
Qed.

(** Sorting a list of distinct keys gives the strictly ascending list of
    the same keys. *)
Lemma sort_strict (l : list string) :
  NoDup l -> StronglySorted PyStr.lt (PyStr.sort l).
Proof.
  induction 1 as [|x l Hx Hnd IH]; simpl; [constructor|].
  apply insert_sorted_strict; [|assumption].
  now rewrite sort_In.
Qed.

Lemma filter_strict (f : string -> bool) (l : list string) :
  StronglySorted PyStr.lt l -> StronglySorted PyStr.lt (filter f l).
Proof.
  induction 1 as [|x l Hs IH Hall]; simpl; [constructor|].
  destruct (f x); [|assumption].
  constructor; [assumption|].
  apply Forall_forall. intros y Hy. apply filter_In in Hy as [Hy _].
  rewrite Forall_forall in Hall. auto.
Qed.

Lemma strict_NoDup (l : list string) :
  StronglySorted PyStr.lt l -> NoDup l.
Proof.
  induction 1 as [|x l Hs IH Hall]; constructor; [|assumption].
  intros Hin. rewrite Forall_forall in Hall.
  exact (lt_irrefl x (Hall x Hin)).
Qed.

(** ** The presence and cardinality differ *)

Section DiffFacts.
Context {A : Type}.
Implicit Types (k label : string).

Lemma diff_line_reports (tests1 tests2 : dict (list A)) label k :
  diff_line tests1 tests2 label k
  = if reports tests1 tests2 k then [finding tests1 tests2 label k] else [].
Proof.
  unfold diff_line, reports, finding, mem, item.
  destruct (lookup tests2 k) as [v2|]; simpl; [|reflexivity].
  destruct (List.length v2 <? _)%nat; reflexivity.
Qed.

Lemma flat_map_diff_line (tests1 tests2 : dict (list A)) label (l : list string) :
  flat_map (diff_line tests1 tests2 label) l
  = map (finding tests1 tests2 label) (filter (reports tests1 tests2) l).
Proof.
  induction l as [|k l IH]; simpl; [reflexivity|].
  rewrite IH, diff_line_reports.
  destruct (reports tests1 tests2 k); reflexivity.
Qed.

Lemma print_diff_findings (tests1 tests2 : dict (list A)) label :
  print_diff tests1 tests2 label
  = map (finding tests1 tests2 label) (reported_keys tests1 tests2).
Proof. apply flat_map_diff_line. Qed.

Lemma reported_keys_In (tests1 tests2 : dict (list A)) k :
  In k (reported_keys tests1 tests2)
  <-> mem tests1 k = true
      /\ (mem tests2 k = false
          \/ List.length (item tests2 k) < List.length (item tests1 k)).
Proof.
  unfold reported_keys, reports.
  rewrite filter_In, sort_In, <- mem_iff, orb_true_iff, negb_true_iff,
    Nat.ltb_lt.
  reflexivity.
Qed.

Lemma reported_keys_strict (tests1 tests2 : dict (list A)) :
  wf tests1 -> StronglySorted PyStr.lt (reported_keys tests1 tests2).
Proof.
  intros H. apply filter_strict, sort_strict. exact H.
Qed.

Lemma reported_keys_once (tests1 tests2 : dict (list A)) k :
  wf tests1 -> wf tests2 -> mismatch tests1 tests2 k ->
  count_occ string_dec
    (reported_keys tests1 tests2 ++ reported_keys tests2 tests1) k = 1.
Proof.
  intros H1 H2 Hm. rewrite count_occ_app.
  pose proof (strict_NoDup _ (reported_keys_strict tests1 tests2 H1)) as N1.
  pose proof (strict_NoDup _ (reported_keys_strict tests2 tests1 H2)) as N2.
  rewrite (NoDup_count_occ' string_dec) in N1, N2.
  assert (Hcases :
    (In k (reported_keys tests1 tests2)
     /\ ~ In k (reported_keys tests2 tests1))
    \/ (~ In k (reported_keys tests1 tests2)
        /\ In k (reported_keys tests2 tests1))).
  { rewrite !reported_keys_In.
    destruct Hm as [[Ha Hb]|[[Ha Hb]|[Ha [Hb Hne]]]].
    - left. split; [auto|]. intros [H _]. congruence.
    - right. split; [|auto]. intros [H _]. congruence.
    - destruct (Nat.lt_ge_cases (List.length (item tests2 k))
                  (List.length (item tests1 k))) as [Hlt|Hge].
      + left. split; [auto|]. intros [_ [H|H]]; [congruence | lia].
      + right. split.
        * intros [_ [H|H]]; [congruence | lia].
        * split; [assumption|]. right. lia. }
  destruct Hcases as [[Hin Hnot]|[Hnot Hin]].
  - rewrite (N1 _ Hin).
    apply (count_occ_not_In string_dec) in Hnot. now rewrite Hnot.
  - rewrite (N2 _ Hin).
    apply (count_occ_not_In string_dec) in Hnot. now rewrite Hnot.
Qed.

Lemma reported_keys_silent (tests1 tests2 : dict (list A)) k :
  ~ mismatch tests1 tests2 k ->
  ~ In k (reported_keys tests1 tests2 ++ reported_keys tests2 tests1).
Proof.
  intros Hm Hin. apply Hm. unfold mismatch.
  apply in_app_iff in Hin. rewrite !reported_keys_In in Hin.
  destruct (mem tests1 k), (mem tests2 k);
    intuition (try congruence); right; right; repeat split; lia.
Qed.

End DiffFacts.



(** ** The scenario *)

(** C9 (amended).  In the scenario the three files load into the two
    groups; the differ run on group 2 with label 2 prints exactly
    [more in 2: a\x\t1 (2 > 1)], the count of group 2 coming first; the run
    on group 1 prints nothing; and the timing differ, with sums 1.0 and
    1.1 and the default thresholds 3 and 1.5, flags the key in neither
    direction. *)
Theorem scenario_more_in_2 :
  load sample_float "f1" [entry "a\\x\\t1.dll" "1.0"]
    (drop1 profile1) (canon profile1) false
  = Ok (scenario_group1, ["f1 has 1 entries and 1 tests"])
  /\ load_group2 sample_float scenario_parse
       (drop2 profile1) (canon profile1) [] ["f2"; "f3"]
     = Ok (scenario_group2,
           ["f2 has 1 entries and 1 tests"; "f3 has 1 entries and 1 tests"])
  /\ print_diff scenario_group2 scenario_group1 "2"
     = ["more in 2: a\x\t1 (2 > 1)"]
  /\ print_diff scenario_group1 scenario_group2 "1" = []
  /\ time_of scenario_group1 "a\x\t1" = float_1_0
  /\ PyNum.format_2f (time_of scenario_group2 "a\x\t1") = "1.10"
  /\ PyNum.format_2f
       (ratio_of (time_of scenario_group1 "a\x\t1")
                 (time_of scenario_group2 "a\x\t1")) = "0.91"
  /\ print_time_diff scenario_group1 scenario_group2 "1"
       Args.time_abs_default Args.time_ratio_default = []
  /\ print_time_diff scenario_group2 scenario_group1 "2"
       Args.time_abs_default Args.time_ratio_default = []
  /\ get sample_float scenario_parse scenario_args
     = Ok ["f1 has 1 entries and 1 tests"; "f2 has 1 entries and 1 tests";
           "f3 has 1 entries and 1 tests";
           "group 1 has 1 entries and 1 tests";
           "group 2 has 1 entries and 2 tests";
           "more in 2: a\x\t1 (2 > 1)";
           "Total in 1: 1.00"; "Total in 2: 1.10"].
Proof. repeat split; vm_compute; reflexivity. Qed.

(** C9 as stated fails: the line [more in 2: a\x\t1 (1 > 2)] is not
    printed; the line that is printed has the counts the other way round. *)
Lemma scenario_not_1_gt_2 :
  print_diff scenario_group2 scenario_group1 "2"
  <> ["more in 2: a\x\t1 (1 > 2)"]
  /\ ~ In "more in 2: a\x\t1 (1 > 2)"
         (print_diff scenario_group2 scenario_group1 "2"
          ++ print_diff scenario_group1 scenario_group2 "1").
Proof.
  split.
  - vm_compute. discriminate.
  - vm_compute. intros [H|[]]. discriminate.
Qed.

(** ** The timing differ *)

Lemma gt_inf_iff (r : PyNum.float) :
  PyNum.gt PyNum.inf r = true <-> r <> S754_infinity false /\ r <> S754_nan.
Proof.
  unfold PyNum.gt, PyNum.inf, SFltb.
  destruct r as [s|[|]| |s m e]; simpl; split;
    try discriminate; try tauto; try (intros _; split; discriminate).
  all: intros [H1 H2]; congruence.
Qed.

Lemma print_time_diff_In (tests1 tests2 : tests_t) (label : string)
  (time_abs : Z) (time_ratio : PyNum.float) (k : string) :
  In k (keys tests1) -> In k (keys tests2) ->
  slower (time_of tests1 k) (time_of tests2 k) time_abs time_ratio = true ->
  In (slower_line label k (time_of tests1 k) (time_of tests2 k)
        (ratio_of (time_of tests1 k) (time_of tests2 k)))
     (print_time_diff tests1 tests2 label time_abs time_ratio).
Proof.
  intros H1 H2 Hs. unfold print_time_diff. apply in_flat_map.
  exists k. split.
  - apply sort_In, filter_In. split; [assumption | now apply mem_iff].
  - unfold time_diff_line. rewrite Hs. now left.
Qed.

(** C6 (amended).  The ratio is +infinity when the second sum equals 0
    and the quotient of the sums otherwise.  When the second sum equals 0,
    a key of both groups is flagged for every [time_ratio] other than
    +infinity and NaN, whatever the first sum and [time_abs] are; this covers
    the case of a positive first sum. *)
Theorem ratio_infinite_flags (v1 v2 : PyNum.float) (time_abs : Z)
  (time_ratio : PyNum.float) :
  (PyNum.eq_zero v2 = true -> ratio_of v1 v2 = PyNum.inf)
  /\ (PyNum.eq_zero v2 = false -> ratio_of v1 v2 = PyNum.div v1 v2)
  /\ (PyNum.eq_zero v2 = true ->
      time_ratio <> S754_infinity false -> time_ratio <> S754_nan ->
      slower v1 v2 time_abs time_ratio = true)
  /\ (forall tests1 tests2 label k,
        In k (keys tests1) -> In k (keys tests2) ->
        time_of tests1 k = v1 -> time_of tests2 k = v2 ->
        PyNum.eq_zero v2 = true ->
        time_ratio <> S754_infinity false -> time_ratio <> S754_nan ->
        In (slower_line label k v1 v2 PyNum.inf)
           (print_time_diff tests1 tests2 label time_abs time_ratio)).
Proof.
  assert (Hs : PyNum.eq_zero v2 = true ->
               time_ratio <> S754_infinity false -> time_ratio <> S754_nan ->
               slower v1 v2 time_abs time_ratio = true).
  { intros Hz Hi Hn. unfold slower, ratio_of. rewrite Hz.
    rewrite (proj2 (gt_inf_iff time_ratio) (conj Hi Hn)).
    apply orb_true_r. }
  repeat split.
  - intros Hz. unfold ratio_of. now rewrite Hz.
  - intros Hz. unfold ratio_of. now rewrite Hz.
  - exact Hs.
  - intros tests1 tests2 label k H1 H2 E1 E2 Hz Hi Hn.
    pose proof (print_time_diff_In tests1 tests2 label time_abs time_ratio k
                  H1 H2) as H.
    rewrite E1, E2 in H. unfold ratio_of in H. rewrite Hz in H.
    apply H. now apply Hs.
Qed.

Lemma ratio_infinite_flags_witness :
  ratio_of float_1_0 PyNum.zero = PyNum.inf
  /\ slower float_1_0 PyNum.zero Args.time_abs_default
       Args.time_ratio_default = true
  /\ In (slower_line "1" "a\x\t1" float_1_0 PyNum.zero PyNum.inf)
        (print_time_diff scenario_group1 zero_group "1"
           Args.time_abs_default Args.time_ratio_default).
Proof.
  pose proof (ratio_infinite_flags float_1_0 PyNum.zero
                Args.time_abs_default Args.time_ratio_default)
    as (H1 & _ & H3 & H4).
  split; [apply H1; reflexivity|].
  split; [apply H3; [reflexivity | discriminate | discriminate]|].
  apply H4; try reflexivity; try discriminate; simpl; tauto.
Defined.

(** C6 as stated fails: with [--time-ratio inf] a key whose second sum is
    0 and whose first sum is 1.0 is not flagged at the default [time_abs]. *)
Lemma ratio_infinite_not_flagged :
  PyNum.eq_zero (time_of zero_group "a\x\t1") = true
  /\ PyNum.gt (time_of scenario_group1 "a\x\t1") PyNum.zero = true
  /\ slower float_1_0 PyNum.zero Args.time_abs_default PyNum.inf = false
  /\ print_time_diff scenario_group1 zero_group "1"
       Args.time_abs_default PyNum.inf = [].
Proof. repeat split. Qed.

(** ** The option --time-abs *)

Lemma lstrip_nonspace (l : list ascii) :
  match l with
  | c :: _ => PyNum.is_space c = false
  | [] => True
  end -> PyNum.lstrip l = l.
Proof.
  destruct l as [|c l]; simpl; [reflexivity|]. now intros ->.
Qed.

Lemma strip_nonspace (l : list ascii) :
  Forall (fun c => PyNum.is_space c = false) l -> PyNum.strip l = l.
Proof.
  intros H. unfold PyNum.strip.
  rewrite (lstrip_nonspace l) by (destruct H; auto).
  rewrite (lstrip_nonspace (rev l)); [apply rev_involutive|].
  apply Forall_rev in H. destruct H; auto.
Qed.

Lemma string_of_uint_nonspace (d : Decimal.uint) :
  Forall (fun c => PyNum.is_space c = false)
         (list_ascii_of_string (NilEmpty.string_of_uint d)).
Proof. induction d; simpl; constructor; auto. Qed.

Lemma digits_string_of_uint (d : Decimal.uint) : forall (acc : nat) (b : bool),
  d <> Decimal.Nil \/ b = true ->
  PyNum.digits (Z.of_nat acc) b
    (list_ascii_of_string (NilEmpty.string_of_uint d))
  = Some (Z.of_nat (Nat.of_uint_acc d acc)).
Proof.
  induction d; intros acc b Hb; cbn [NilEmpty.string_of_uint
    list_ascii_of_string PyNum.digits Nat.of_uint_acc].
  1: { destruct Hb as [Hb| ->]; [congruence | reflexivity]. }
  all: match goal with
       | |- context [PyNum.digit_of ?c] =>
           let v := eval vm_compute in (PyNum.digit_of c) in
           change (PyNum.digit_of c) with v
       end;
    cbv iota beta;
    match goal with
    | |- PyNum.digits ?z true _ = Some (Z.of_nat (Nat.of_uint_acc _ ?n)) =>
        replace z with (Z.of_nat n);
        [apply IHd; now right
        | rewrite Nat.tail_mul_spec; lia]
    end.
Qed.

Lemma to_uint_nonnil (n : nat) : Nat.to_uint n <> Decimal.Nil.
Proof.
  rewrite <- (DecimalNat.Unsigned.of_to n) at 1.
  rewrite DecimalNat.Unsigned.to_of. apply DecimalFacts.unorm_nonnil.
Qed.

Lemma count_digits_string_of_uint (d : Decimal.uint) :
  PyNum.count_digits (list_ascii_of_string (NilEmpty.string_of_uint d))
  = String.length (NilEmpty.string_of_uint d).
Proof.
  unfold PyNum.count_digits.
  induction d; cbn [NilEmpty.string_of_uint list_ascii_of_string filter
    String.length]; [reflexivity| ..];
    match goal with
    | |- context [PyNum.digit_of ?c] =>
        let v := eval vm_compute in (PyNum.digit_of c) in
        change (PyNum.digit_of c) with v
    end;
    cbv iota; cbn [List.length]; now rewrite IHd.
Qed.

Lemma numeral_string_of_uint (d : Decimal.uint) :
  d <> Decimal.Nil ->
  String.length (NilEmpty.string_of_uint d) <= PyNum.max_str_digits ->
  PyNum.numeral (list_ascii_of_string (NilEmpty.string_of_uint d))
  = Some (Z.of_nat (Nat.of_uint d)).
Proof.
  intros Hnn Hlen. unfold PyNum.numeral.
  rewrite count_digits_string_of_uint.
  rewrite (proj2 (Nat.ltb_ge _ _) Hlen).
  exact (digits_string_of_uint d 0 false (or_introl Hnn)).
Qed.

(** [int] reads the decimal spelling of a natural number back, and the
    spelling with a minus sign as its opposite, as long as the spelling has
    no more digits than the limit; beyond the limit it rejects it. *)
Lemma int_of_nat (n : nat) :
  String.length (PyStr.of_nat n) <= PyNum.max_str_digits ->
  PyNum.int (PyStr.of_nat n) = Some (Z.of_nat n).
Proof.
  unfold PyNum.int, PyStr.of_nat. intros Hlen.
  rewrite strip_nonspace by apply string_of_uint_nonspace.
  pose proof (to_uint_nonnil n) as Hnn.
  pose proof (numeral_string_of_uint (Nat.to_uint n) Hnn Hlen) as Hd.
  rewrite DecimalNat.Unsigned.of_to in Hd.
  destruct (Nat.to_uint n); [congruence| ..]; exact Hd.
Qed.

Lemma int_of_neg (n : nat) :
  String.length (PyStr.of_nat n) <= PyNum.max_str_digits ->
  PyNum.int (String "-" (PyStr.of_nat n)) = Some (- Z.of_nat n)%Z.
Proof.
  unfold PyNum.int, PyStr.of_nat. intros Hlen. cbn [list_ascii_of_string].
  rewrite strip_nonspace
    by (constructor; [reflexivity | apply string_of_uint_nonspace]).
  cbn [Ascii.eqb Bool.eqb]. cbv iota.
  pose proof (to_uint_nonnil n) as Hnn.
  rewrite (numeral_string_of_uint (Nat.to_uint n) Hnn Hlen).
  now rewrite DecimalNat.Unsigned.of_to.
Qed.

Lemma int_over_limit (n : nat) :
  PyNum.max_str_digits < String.length (PyStr.of_nat n) ->
  PyNum.int (PyStr.of_nat n) = None.
Proof.
  unfold PyNum.int, PyStr.of_nat. intros Hlen.
  rewrite strip_nonspace by apply string_of_uint_nonspace.
  assert (H : PyNum.numeral
                (list_ascii_of_string
                   (NilEmpty.string_of_uint (Nat.to_uint n))) = None).
  { unfold PyNum.numeral. rewrite count_digits_string_of_uint.
    now rewrite (proj2 (Nat.ltb_lt _ _) Hlen). }
  pose proof (to_uint_nonnil n) as Hnn.
  destruct (Nat.to_uint n); [congruence| ..]; exact H.
Qed.

Lemma lstrip_In (c : ascii) (l : list ascii) :
  PyNum.is_space c = false -> In c l -> In c (PyNum.lstrip l).
Proof.
  intros Hc. induction l as [|a l IH]; simpl; [tauto|].
  destruct (PyNum.is_space a) eqn:E; [|simpl; tauto].
  intros [->|H]; [congruence | auto].
Qed.

Lemma strip_In (c : ascii) (l : list ascii) :
  PyNum.is_space c = false -> In c l -> In c (PyNum.strip l).
Proof.
  intros Hc Hin. unfold PyNum.strip.
  apply in_rev. rewrite rev_involutive.
  apply lstrip_In; [assumption|]. apply in_rev. rewrite rev_involutive.
  now apply lstrip_In.
Qed.

Lemma digits_reject (c : ascii) (l : list ascii) : forall acc b,
  PyNum.digit_of c = None -> c <> "_"%char -> In c l ->
  PyNum.digits acc b l = None.
Proof.
  intros acc b Hd Hu. revert acc b.
  induction l as [|a l IH]; simpl; intros acc b Hin; [tauto|].
  destruct (PyNum.digit_of a) as [z|] eqn:Ea.
  - destruct Hin as [->|Hin]; [congruence | auto].
  - destruct (Ascii.eqb_spec a "_"%char) as [->|Ha]; simpl.
    + destruct b; [|reflexivity].
      destruct Hin as [<-|Hin]; [congruence | auto].
    + reflexivity.
Qed.

(** A text with a decimal point is no integer. *)
Lemma numeral_reject (c : ascii) (l : list ascii) :
  PyNum.digit_of c = None -> c <> "_"%char -> In c l ->
  PyNum.numeral l = None.
Proof.
  intros Hd Hu Hin. unfold PyNum.numeral.
  destruct (PyNum.max_str_digits <? PyNum.count_digits l)%nat;
    [reflexivity|].
  now apply (digits_reject c).
Qed.

Lemma int_rejects_point (text : string) :
  In "."%char (list_ascii_of_string text) -> PyNum.int text = None.
Proof.
  intros Hin. apply strip_In in Hin; [|reflexivity].
  unfold PyNum.int. destruct (PyNum.strip _) as [|c body]; [reflexivity|].
  destruct (Ascii.eqb_spec c "-"%char) as [->|Hm].
  - destruct Hin as [H|Hin]; [discriminate|].
    now rewrite (numeral_reject "."%char body).
  - destruct (Ascii.eqb_spec c "+"%char) as [->|Hp].
    + destruct Hin as [H|Hin]; [discriminate|].
      now rewrite (numeral_reject "."%char body).
    + now apply (numeral_reject "."%char).
Qed.

(** The first text that its [type] rejects is the one reported, wherever
    the other option stands on the command line. *)
Lemma convert_values_first_rejected
  (float_of_string : string -> option PyNum.float)
  (before after : list (Args.typed_option * string))
  (value : Args.typed_option * string) :
  forallb (Args.converts float_of_string) before = true ->
  Args.converts float_of_string value = false ->
  forall time_abs time_ratio,
    Args.convert_values float_of_string (before ++ value :: after)
      time_abs time_ratio
    = Raise (ArgumentError (snd value)).
Proof.
  intros Hbefore Hvalue.
  induction before as [|[o text] before IH]; intros time_abs time_ratio.
  - destruct value as [[|] text]; simpl in *.
    + now destruct (PyNum.int text).
    + now destruct (float_of_string text).
  - simpl in Hbefore. apply andb_true_iff in Hbefore as [Ho Hrest].
    destruct o; simpl in *.
    + destruct (PyNum.int text); [|discriminate]. simpl. now apply IH.
    + destruct (float_of_string text); [|discriminate]. simpl. now apply IH.
Qed.

Lemma get_parsed_time_diff
  (float_of_string : string -> option PyNum.float)
  (parse : string -> result (list attrib_t)) (cmd_args : Args.t)
  (out : list string) :
  Args.time cmd_args = true ->
  get_parsed float_of_string parse cmd_args = Ok out ->
  exists (tests1 tests2 : tests_t) (before : list string),
    out = before
          ++ print_time_diff tests1 tests2 "1"
               (if Args.zero_first cmd_args then 0%Z
                else Args.time_abs cmd_args)
               (Args.time_ratio cmd_args)
          ++ print_time_diff tests2 tests1 "2"
               (if Args.zero_first cmd_args then 0%Z
                else Args.time_abs cmd_args)
               (Args.time_ratio cmd_args)
          ++ [total_line "1" tests1; total_line "2" tests2].
Proof.
  intros Ht. unfold get_parsed. rewrite Ht.
  destruct (parse (Args.first_file cmd_args)) as [root1|]; cbn [bind];
    [|discriminate].
  destruct (load float_of_string _ root1 _ _ _) as [[tests1 out1]|];
    cbn [bind]; [|discriminate].
  destruct (load_group2 float_of_string parse _ _ _ _) as [[tests2 out2]|];
    cbn [bind fst snd]; [|discriminate].
  intros [= <-]. exists tests1, tests2.
  exists (out1 ++ out2
          ++ [count_line "1" tests1; count_line "2" tests2]
          ++ (if Args.group cmd_args
              then print_grouped_by_dir tests1 tests2
              else print_diff tests1 tests2 "1"
                   ++ print_diff tests2 tests1 "2")).
  rewrite <- !app_assoc. reflexivity.
Qed.




(** ** Grouping by directory *)

Section GroupFacts.
Context {A : Type}.
Implicit Types (tests : dict (list A)) (d k : string).

Lemma lookup_filter_key (f : string -> bool) tests k :
  lookup (filter (fun kv => f (fst kv)) tests) k
  = if f k then lookup tests k else None.
Proof.
  induction tests as [|[k0 v0] tests IH]; simpl.
  - now destruct (f k).
  - destruct (f k0) eqn:E0; simpl.
    + destruct (String.eqb_spec k k0) as [->|Hne].
      * now rewrite E0.
      * exact IH.
    + destruct (String.eqb_spec k k0) as [->|Hne].
      * now rewrite IH, E0.
      * exact IH.
Qed.

Lemma lookup_under_dir d tests k :
  lookup (under_dir d tests) k
  = if in_dir d k then lookup tests k else None.
Proof. apply (lookup_filter_key (in_dir d)). Qed.

Lemma keys_under_dir d tests k :
  In k (keys (under_dir d tests)) <-> In k (keys tests) /\ test_dir_of k = d.
Proof.
  rewrite <- !mem_iff. unfold mem. rewrite lookup_under_dir.
  unfold in_dir. destruct (String.eqb_spec (test_dir_of k) d) as [E|E].
  - tauto.
  - split; [discriminate | tauto].
Qed.

Lemma wf_under_dir d tests : wf tests -> wf (under_dir d tests).
Proof.
  unfold wf, under_dir, keys.
  induction tests as [|[k0 v0] tests IH]; simpl; intros H; [constructor|].
  inversion H as [|? ? Hnotin Hnd]; subst.
  destruct (in_dir d k0); simpl; auto.
  constructor; auto.
  intros Hin. apply Hnotin. apply in_map_iff in Hin as [kv [E Hin]].
  apply filter_In in Hin as [Hin _]. apply in_map_iff. eauto.
Qed.

Lemma under_dir_app d tests tests' :
  under_dir d (tests ++ tests') = under_dir d tests ++ under_dir d tests'.
Proof. apply filter_app. Qed.

Lemma group_test_by_directory_fold tests :
  group_test_by_directory tests = fold_left group_step tests [].
Proof.
  unfold group_test_by_directory.
  assert (H : forall acc : dict (dict (list A)),
             fold_left
               (fun tests_by_dir kv =>
                  let test_name := fst kv in
                  let value := snd kv in
                  let test_dir := test_dir_of test_name in
                  let tests_by_dir :=
                    if mem tests_by_dir test_dir then tests_by_dir
                    else set tests_by_dir test_dir [] in
                  let inner := match lookup tests_by_dir test_dir with
                               | Some inner => inner
                               | None => []
                               end in
                  set tests_by_dir test_dir (set inner test_name value))
               tests acc
             = fold_left group_step tests acc); [|apply H].
  induction tests as [|kv tests IH]; intros acc; cbn [fold_left];
    [reflexivity|].
  rewrite IH. f_equal. unfold group_step, mem. cbv zeta.
  unfold dict in *.
  match goal with
  | |- context [match ?x with Some _ => true | None => false end] =>
      destruct x eqn:E
  end.
  - now rewrite E.
  - now rewrite get_set_same, set_set.
Qed.

Lemma group_test_by_directory_snoc tests kv :
  group_test_by_directory (tests ++ [kv])
  = group_step (group_test_by_directory tests) kv.
Proof.
  rewrite !group_test_by_directory_fold. now rewrite fold_left_app.
Qed.

Lemma wf_group_test_by_directory tests :
  wf (group_test_by_directory tests).
Proof.
  induction tests as [|kv tests IH] using rev_ind.
  - constructor.
  - rewrite group_test_by_directory_snoc. now apply wf_set.
Qed.

Lemma wf_snoc tests k (v : list A) :
  wf (tests ++ [(k, v)]) -> wf tests /\ ~ In k (keys tests).
Proof.
  unfold wf, keys. rewrite map_app. simpl. intros H.
  apply NoDup_remove in H. now rewrite app_nil_r in H.
Qed.

Lemma under_dir_single d k (v : list A) :
  under_dir d [(k, v)]
  = if String.eqb (test_dir_of k) d then [(k, v)] else [].
Proof. reflexivity. Qed.

(** The dictionary of a directory holds the tests of that directory, in
    the order of the group; a directory without tests has none. *)
Lemma lookup_group_test_by_directory tests :
  wf tests -> forall d,
  lookup (group_test_by_directory tests) d
  = match under_dir d tests with
    | [] => None
    | _ :: _ => Some (under_dir d tests)
    end.
Proof.
  induction tests as [|[k v] tests IH] using rev_ind; intros Hwf d;
    [reflexivity|].
  apply wf_snoc in Hwf as [Hwf Hk]. specialize (IH Hwf).
  rewrite group_test_by_directory_snoc, under_dir_app.
  unfold group_step. cbn [fst snd].
  replace (match lookup (group_test_by_directory tests) (test_dir_of k) with
           | Some inner => inner
           | None => []
           end) with (under_dir (test_dir_of k) tests)
    by (rewrite IH; now destruct (under_dir (test_dir_of k) tests)).
  rewrite (under_dir_single d k v).
  destruct (String.eqb_spec (test_dir_of k) d) as [<-|Hne].
  - rewrite get_set_same, set_notin.
    + now destruct (under_dir (test_dir_of k) tests).
    + rewrite keys_under_dir. tauto.
  - rewrite get_set_other by congruence. rewrite app_nil_r. apply IH.
Qed.

Lemma lookup_group_default tests d :
  wf tests ->
  match lookup (group_test_by_directory tests) d with
  | Some inner => inner
  | None => []
  end = under_dir d tests.
Proof.
  intros Hwf. rewrite lookup_group_test_by_directory by assumption.
  now destruct (under_dir d tests).
Qed.

Lemma group_entry tests d (sub : dict (list A)) :
  wf tests -> In (d, sub) (group_test_by_directory tests) ->
  sub = under_dir d tests.
Proof.
  intros Hwf Hin.
  apply In_get in Hin; [|apply wf_group_test_by_directory].
  rewrite lookup_group_test_by_directory in Hin by assumption.
  destruct (under_dir d tests); congruence.
Qed.

Lemma keys_group_test_by_directory tests d :
  wf tests ->
  In d (keys (group_test_by_directory tests))
  <-> exists k, In k (keys tests) /\ test_dir_of k = d.
Proof.
  intros Hwf. rewrite <- mem_iff. unfold mem.
  rewrite lookup_group_test_by_directory by assumption.
  destruct (under_dir d tests) as [|[k v] sub] eqn:E.
  - split; [discriminate|]. intros [k Hk].
    apply keys_under_dir in Hk. rewrite E in Hk. destruct Hk.
  - split; [intros _ | reflexivity]. exists k.
    apply keys_under_dir. rewrite E. now left.
Qed.

End GroupFacts.

(** ** The grouped differ *)

Lemma existsb_ext_in {X} (f g : X -> bool) (l : list X) :
  (forall x, In x l -> f x = g x) -> existsb f l = existsb g l.
Proof.
  induction l as [|x l IH]; simpl; intros H; [reflexivity|].
  rewrite (H x) by auto. rewrite IH by auto. reflexivity.
Qed.

Lemma flat_map_ext_in {X Y} (f g : X -> list Y) (l : list X) :
  (forall x, In x l -> f x = g x) -> flat_map f l = flat_map g l.
Proof.
  induction l as [|x l IH]; simpl; intros H; [reflexivity|].
  rewrite (H x) by auto. rewrite IH by auto. reflexivity.
Qed.

Section GroupedFacts.
Context {A : Type}.
Implicit Types (d k : string).

Lemma mem_under_dir (tests : dict (list A)) d k :
  test_dir_of k = d -> mem (under_dir d tests) k = mem tests k.
Proof.
  intros E. unfold mem. rewrite lookup_under_dir. unfold in_dir.
  now rewrite E, String.eqb_refl.
Qed.

Lemma item_under_dir (tests : dict (list A)) d k :
  test_dir_of k = d -> item (under_dir d tests) k = item tests k.
Proof.
  intros E. unfold item. rewrite lookup_under_dir. unfold in_dir.
  now rewrite E, String.eqb_refl.
Qed.

Lemma differs_under_dir (tests1 tests2 : dict (list A)) d k :
  test_dir_of k = d ->
  differs (under_dir d tests1) (under_dir d tests2) k
  = differs tests1 tests2 k.
Proof.
  intros E. unfold differs.
  now rewrite !(mem_under_dir _ d k E), !(item_under_dir _ d k E).
Qed.

Lemma grouped_line_under_dir (tests1 tests2 : dict (list A)) d k :
  test_dir_of k = d ->
  grouped_line (under_dir d tests1) (under_dir d tests2) k
  = grouped_line tests1 tests2 k.
Proof.
  intros E. unfold grouped_line.
  now rewrite !(mem_under_dir _ d k E), !(item_under_dir _ d k E).
Qed.

Lemma names_under_In (tests1 tests2 : dict (list A)) d k :
  In k (names_under tests1 tests2 d)
  <-> (In k (keys tests1) \/ In k (keys tests2)) /\ test_dir_of k = d.
Proof.
  unfold names_under, all_distinct_tests_of.
  rewrite sort_In, in_app_iff, filter_In, !keys_under_dir, negb_true_iff.
  split.
  - intros [[H E]|[[H E] _]]; auto.
  - intros [[H|H] E]; [now left|].
    destruct (mem (under_dir d tests1) k) eqn:Em.
    + left. now apply keys_under_dir, mem_iff.
    + right. auto.
Qed.

Lemma names_under_strict (tests1 tests2 : dict (list A)) d :
  wf tests1 -> wf tests2 ->
  StronglySorted PyStr.lt (names_under tests1 tests2 d).
Proof.
  intros H1 H2. apply sort_strict. apply NoDup_app.
  - now apply wf_under_dir.
  - apply NoDup_filter. now apply wf_under_dir.
  - intros k Hin Hin'. apply filter_In in Hin' as [_ Hn].
    apply mem_iff in Hin. rewrite Hin in Hn. discriminate.
Qed.

Lemma directory_block_eq (tests1 tests2 : dict (list A)) d :
  wf tests2 ->
  directory_block (group_test_by_directory tests2) d (under_dir d tests1)
  = block_of tests1 tests2 d.
Proof.
  intros H2. unfold directory_block, block_of.
  rewrite (lookup_group_default tests2 d H2).
  fold (names_under tests1 tests2 d).
  rewrite (existsb_ext_in _ (differs tests1 tests2)).
  2: { intros k Hk. apply differs_under_dir.
       now apply names_under_In in Hk. }
  rewrite (flat_map_ext_in _ (grouped_line tests1 tests2)).
  2: { intros k Hk. apply grouped_line_under_dir.
       now apply names_under_In in Hk. }
  now destruct (existsb _ _).
Qed.

(** The output is the sequence of the blocks of the directories of the
    first group, in the order in which the group meets them. *)
Lemma print_grouped_by_dir_blocks (tests1 tests2 : dict (list A)) :
  wf tests1 -> wf tests2 ->
  print_grouped_by_dir tests1 tests2
  = flat_map (block_of tests1 tests2)
      (keys (group_test_by_directory tests1)).
Proof.
  intros H1 H2. unfold print_grouped_by_dir, keys.
  rewrite flat_map_concat_map, flat_map_concat_map, map_map.
  f_equal. apply map_ext_in. intros [d sub] Hin. cbn [fst snd].
  rewrite (group_entry tests1 d sub H1 Hin).
  now apply directory_block_eq.
Qed.

Lemma differs_iff_mismatch (tests1 tests2 : dict (list A)) k :
  In k (keys tests1) \/ In k (keys tests2) ->
  differs tests1 tests2 k = true <-> mismatch tests1 tests2 k.
Proof.
  rewrite <- !mem_iff. unfold differs, mismatch.
  rewrite negb_true_iff.
  destruct (mem tests1 k), (mem tests2 k); simpl; intros Hor.
  - rewrite Nat.eqb_neq. intuition congruence.
  - intuition congruence.
  - intuition congruence.
  - destruct Hor; discriminate.
Qed.

End GroupedFacts.

(** ** Directories and short names *)

Lemma split_nonempty (s : string) : PyStr.split PyStr.backslash s <> [].
Proof.
  destruct s as [|c s]; simpl; [discriminate|].
  destruct (Ascii.eqb c PyStr.backslash); [discriminate|].
  destruct (PyStr.split PyStr.backslash s); discriminate.
Qed.

Lemma join_cons (x : string) (l : list string) :
  l <> [] ->
  PyStr.join backslash_str (x :: l)
  = (x ++ backslash_str ++ PyStr.join backslash_str l)%string.
Proof. destruct l; [congruence | reflexivity]. Qed.

Lemma join_cons_char (c : ascii) (x : string) (l : list string) :
  PyStr.join backslash_str (String c x :: l)
  = String c (PyStr.join backslash_str (x :: l)).
Proof. destruct l; reflexivity. Qed.

(** Joining the segments of a name gives the name back. *)
Lemma join_split (s : string) :
  PyStr.join backslash_str (PyStr.split PyStr.backslash s) = s.
Proof.
  induction s as [|c s IH]; [reflexivity|]. cbn [PyStr.split].
  destruct (Ascii.eqb_spec c PyStr.backslash) as [->|Hne].
  - rewrite join_cons by apply split_nonempty. now rewrite IH.
  - pose proof (split_nonempty s) as Hs.
    destruct (PyStr.split PyStr.backslash s) as [|seg segs]; [congruence|].
    rewrite join_cons_char. now rewrite IH.
Qed.

Lemma join_app (l1 l2 : list string) :
  l1 <> [] -> l2 <> [] ->
  PyStr.join backslash_str (l1 ++ l2)
  = (PyStr.join backslash_str l1 ++ backslash_str
     ++ PyStr.join backslash_str l2)%string.
Proof.
  intros H1 H2. induction l1 as [|x l1 IH]; [congruence|].
  destruct l1 as [|y l1].
  - simpl app. now rewrite join_cons.
  - change ((x :: y :: l1) ++ l2) with (x :: ((y :: l1) ++ l2)).
    rewrite join_cons by discriminate. rewrite IH by discriminate.
    rewrite (join_cons x (y :: l1)) by discriminate.
    now rewrite !append_assoc.
Qed.

(** A key in a directory with a name is the directory, a backslash and
    the short name. *)
Lemma key_of_dir_and_short_name (k : string) :
  test_dir_of k <> "" ->
  k = (test_dir_of k ++ backslash_str ++ short_name_of k)%string.
Proof.
  unfold test_dir_of, short_name_of, PyStr.list_drop_last,
    PyStr.list_take_last.
  set (segs := PyStr.split PyStr.backslash k).
  set (n := List.length segs - 2). intros Hdir.
  rewrite <- join_app.
  - rewrite firstn_skipn. symmetry. apply join_split.
  - intros E. rewrite E in Hdir. now apply Hdir.
  - intros E. apply (f_equal (@List.length string)) in E.
    rewrite length_skipn in E. simpl in E.
    assert (n = 0) by (unfold n in *; lia).
    apply Hdir. now replace n with 0.
Qed.

Lemma compare_append (p a b : string) :
  String_as_OT.compare (p ++ a) (p ++ b) = String_as_OT.compare a b.
Proof.
  induction p as [|c p IH]; simpl; [reflexivity|].
  unfold Ascii_as_OT.compare. now rewrite N.compare_refl.
Qed.

Lemma short_names_strict (d : string) (l : list string) :
  d <> "" -> (forall k, In k l -> test_dir_of k = d) ->
  StronglySorted PyStr.lt l ->
  StronglySorted PyStr.lt (map short_name_of l).
Proof.
  intros Hd Hdir Hs. induction Hs as [|k l Hs IH Hall]; simpl; constructor.
  - apply IH. intros k' Hk'. apply Hdir. now right.
  - apply Forall_forall. intros s Hin.
    apply in_map_iff in Hin as [k' [<- Hk']].
    rewrite Forall_forall in Hall. specialize (Hall k' Hk').
    unfold PyStr.lt, String_as_OT.lt in *.
    rewrite (key_of_dir_and_short_name k) in Hall
      by (rewrite Hdir; [assumption | now left]).
    rewrite (key_of_dir_and_short_name k') in Hall
      by (rewrite Hdir; [assumption | now right]).
    rewrite (Hdir k), (Hdir k') in Hall by (simpl; auto).
    now rewrite !compare_append in Hall.
Qed.

Lemma grouped_line_cases {A} (tests1 tests2 : dict (list A)) (k : string) :
  grouped_line tests1 tests2 k
  = match lookup tests1 k, lookup tests2 k with
    | Some v1, Some v2 =>
        if (List.length v2 <? List.length v1)%nat
        then [grouped_more_line "1" (short_name_of k)
                (List.length v1) (List.length v2)]
        else if (List.length v1 <? List.length v2)%nat
             then [grouped_more_line "2" (short_name_of k)
                     (List.length v2) (List.length v1)]
             else []
    | Some _, None => [grouped_only_line "1" (short_name_of k)]
    | None, Some _ => [grouped_only_line "2" (short_name_of k)]
    | None, None => []
    end.
Proof.
  unfold grouped_line, mem, item.
  destruct (lookup tests1 k) as [v1|], (lookup tests2 k) as [v2|];
    try reflexivity.
  destruct (Nat.ltb_spec (List.length v2) (List.length v1)) as [H|H];
    destruct (Nat.ltb_spec (List.length v1) (List.length v2)) as [H'|H'];
    try reflexivity.
  lia.
Qed.

Lemma block_of_nonempty {A} (tests1 tests2 : dict (list A)) (d : string) :
  block_of tests1 tests2 d <> []
  <-> exists k, (In k (keys tests1) \/ In k (keys tests2))
                /\ test_dir_of k = d /\ mismatch tests1 tests2 k.
Proof.
  unfold block_of.
  destruct (existsb (differs tests1 tests2) (names_under tests1 tests2 d))
    eqn:E.
  - split; [intros _ | discriminate].
    apply existsb_exists in E as [k [Hin Hd]].
    apply names_under_In in Hin as [Hor Hdir].
    exists k. repeat split; auto. now apply differs_iff_mismatch.
  - split; [congruence|]. intros [k [Hor [Hdir Hm]]]. exfalso.
    assert (existsb (differs tests1 tests2) (names_under tests1 tests2 d)
            = true); [|congruence].
    apply existsb_exists. exists k. split.
    + apply names_under_In. auto.
    + now apply differs_iff_mismatch.
Qed.




(** * The remaining code *)

(** ** Appending to a key *)

Section AppendFacts.
Context {A : Type}.
Implicit Types (d : dict (list A)) (k : string).

Lemma add_dict_list_item_eq d k (x : A) :
  add_dict_list_item d k x = set d k (item d k ++ [x]).
Proof.
  unfold add_dict_list_item, setdefault, item.
  destruct (lookup d k); [reflexivity | apply set_set].
Qed.

Lemma test_count_set d k (v : list A) :
  test_count (set d k v) + List.length (item d k)
  = test_count d + List.length v.
Proof.
  unfold test_count, values, item.
  induction d as [|[k0 v0] d IH]; simpl; [lia|].
  destruct (String.eqb k k0); simpl; lia.
Qed.

Lemma test_count_add_list d k (v : list A) :
  test_count (add_dict_list_list d k v) = test_count d + List.length v.
Proof.
  rewrite add_dict_list_list_eq.
  pose proof (test_count_set d k (item d k ++ v)) as H.
  rewrite length_app in H. lia.
Qed.

Lemma test_count_add_item d k (x : A) :
  test_count (add_dict_list_item d k x) = S (test_count d).
Proof.
  rewrite add_dict_list_item_eq.
  pose proof (test_count_set d k (item d k ++ [x])) as H.
  rewrite length_app in H. simpl in H. lia.
Qed.

Lemma item_add_item d k k' (x : A) :
  item (add_dict_list_item d k x) k'
  = item d k' ++ (if String.eqb k' k then [x] else []).
Proof.
  rewrite add_dict_list_item_eq. unfold item at 1.
  destruct (String.eqb_spec k' k) as [->|Hne].
  - now rewrite get_set_same.
  - rewrite get_set_other by assumption. fold (item d k').
    now rewrite app_nil_r.
Qed.

Lemma wf_add_item d k (x : A) : wf d -> wf (add_dict_list_item d k x).
Proof. rewrite add_dict_list_item_eq. apply wf_set. Qed.

Lemma test_count_update d2 : forall d1 : dict (list A),
  test_count (update_dict_list d1 d2) = test_count d1 + test_count d2.
Proof.
  unfold update_dict_list.
  induction d2 as [|[k0 v0] d2 IH]; intros d1; simpl.
  - unfold test_count at 3. simpl. lia.
  - rewrite IH, test_count_add_list. unfold test_count at 4. simpl.
    fold (values d2). fold (test_count d2). lia.
Qed.

Lemma update_dict_list_fresh d2 : forall d1 : dict (list A),
  wf d2 -> (forall k, In k (keys d2) -> ~ In k (keys d1)) ->
  update_dict_list d1 d2 = d1 ++ d2.
Proof.
  unfold update_dict_list, wf.
  induction d2 as [|[k0 v0] d2 IH]; intros d1 Hwf Hfresh; simpl.
  - now rewrite app_nil_r.
  - inversion Hwf as [|? ? Hnotin Hwf']; subst.
    assert (Hk0 : ~ In k0 (keys d1)) by (apply Hfresh; now left).
    rewrite add_dict_list_list_eq, (item_notin d1 k0 Hk0).
    rewrite set_notin by assumption. simpl app.
    rewrite IH; [now rewrite <- app_assoc | assumption |].
    intros k Hk. unfold keys. rewrite map_app, in_app_iff. simpl.
    intros [H|[<-|[]]].
    + revert H. apply Hfresh. now right.
    + auto.
Qed.

End AppendFacts.

(** X1.  Appending a record to a key puts it after the records the key
    already has and leaves every other key alone: the total number of
    records grows by one, and the keys are the old keys and the key
    appended to. *)
Theorem add_dict_list_item_appends {A} (d : dict (list A)) (k k' : string)
  (x : A) :
  item (add_dict_list_item d k x) k'
  = item d k' ++ (if String.eqb k' k then [x] else [])
  /\ test_count (add_dict_list_item d k x) = S (test_count d)
  /\ mem (add_dict_list_item d k x) k' = (String.eqb k' k || mem d k').
Proof.
  split; [apply item_add_item|]. split; [apply test_count_add_item|].
  rewrite add_dict_list_item_eq. unfold mem.
  destruct (String.eqb_spec k' k) as [->|Hne]; simpl.
  - now rewrite get_set_same.
  - now rewrite get_set_other.
Qed.

(** X2.  Merging is additive on the whole group: the merged group has as
    many records as the two groups together, whatever keys they share. *)
Theorem update_dict_list_count {A} (d1 d2 : dict (list A)) :
  test_count (update_dict_list d1 d2) = test_count d1 + test_count d2.
Proof. apply test_count_update. Qed.

(** X3.  Merging a group none of whose keys is in the base appends it to
    the base unchanged and in its order; merging into the empty group gives
    the group itself. *)
Theorem update_dict_list_new_keys {A} (d1 d2 : dict (list A)) :
  wf d2 -> (forall k, In k (keys d2) -> ~ In k (keys d1)) ->
  update_dict_list d1 d2 = d1 ++ d2 /\ update_dict_list [] d2 = d2.
Proof.
  intros Hwf Hfresh. split.
  - now apply update_dict_list_fresh.
  - apply (update_dict_list_fresh d2 []); [assumption|]. intros k _ [].
Qed.

Lemma update_dict_list_new_keys_witness :
  update_dict_list merge_base merge_new = merge_base ++ merge_new
  /\ update_dict_list [] merge_new = merge_new.
Proof.
  apply (update_dict_list_new_keys merge_base merge_new).
  - unfold wf. simpl. repeat constructor; simpl; intuition discriminate.
  - unfold merge_new, merge_base. simpl.
    intros k [<-|[<-|[]]] [H|[H|[]]]; discriminate.
Defined.

(** ** What a loaded group holds *)

Section LoadedFacts.
Variable float_of_string : string -> option PyNum.float.
Variables drop canon : list string.
Variable zero : bool.

Lemma stored_names_app (k : string) (r1 r2 : list attrib_t) :
  stored_names drop canon k (r1 ++ r2)
  = stored_names drop canon k r1 ++ stored_names drop canon k r2.
Proof. apply flat_map_app. Qed.

Lemma load_test_step (tests tests' : tests_t) (attrib : attrib_t) :
  load_test float_of_string drop canon zero tests attrib = Ok tests' ->
  (wf tests -> wf tests')
  /\ test_count tests'
     = test_count tests + (if kept drop attrib then 1 else 0)
  /\ forall k, map fst (item tests' k)
               = map fst (item tests k)
                 ++ stored_names drop canon k [attrib].
Proof.
  unfold load_test, kept, stored_names. simpl flat_map.
  destruct (lookup attrib "name") as [name|]; [|discriminate].
  destruct (dropped drop (normalize name)) eqn:Hdrop; simpl negb.
  - intros [= <-]. repeat split; [auto | lia |].
    intros k. simpl. now rewrite app_nil_r.
  - destruct (read_time float_of_string attrib zero) as [t|e];
      simpl; [|discriminate].
    intros [= <-]. repeat split.
    + apply wf_add_item.
    + rewrite test_count_add_item. lia.
    + intros k. rewrite item_add_item, map_app. fold (canonical_key canon name).
      rewrite (String.eqb_sym k).
      now destruct (String.eqb (canonical_key canon name) k).
Qed.

Lemma load_tests_steps (root : list attrib_t) : forall tests tests',
  load_tests float_of_string drop canon zero tests root = Ok tests' ->
  (wf tests -> wf tests')
  /\ test_count tests'
     = test_count tests + List.length (filter (kept drop) root)
  /\ forall k, map fst (item tests' k)
               = map fst (item tests k) ++ stored_names drop canon k root.
Proof.
  induction root as [|attrib root IH]; simpl; intros tests tests'.
  - intros [= <-]. repeat split; [auto | lia |].
    intros k. now rewrite app_nil_r.
  - destruct (load_test float_of_string drop canon zero tests attrib)
      as [tests1|e] eqn:E; simpl; [|discriminate].
    intros Hrest.
    destruct (load_test_step _ _ _ E) as (Hw1 & Hc1 & Hi1).
    destruct (IH _ _ Hrest) as (Hw2 & Hc2 & Hi2).
    repeat split.
    + auto.
    + rewrite Hc2, Hc1. destruct (kept drop attrib); simpl; lia.
    + intros k. rewrite Hi2, Hi1, <- app_assoc.
      now rewrite <- stored_names_app.
Qed.

Lemma load_unfold (file : string) (root : list attrib_t) (tests : tests_t)
  (out : list string) :
  load float_of_string file root drop canon zero = Ok (tests, out) ->
  load_tests float_of_string drop canon zero [] root = Ok tests
  /\ out = [(file ++ " has " ++ PyStr.of_nat (List.length tests)
             ++ " entries and " ++ PyStr.of_nat (test_count tests)
             ++ " tests")%string].
Proof.
  unfold load.
  destruct (load_tests float_of_string drop canon zero [] root);
    simpl; [|discriminate].
  now intros [= <- <-].
Qed.

Lemma nonempty_count {X} (d : dict (list X)) :
  Forall (fun kv => snd kv <> []) d -> List.length d <= test_count d.
Proof.
  unfold test_count, values.
  induction 1 as [|[k v] d Hne _ IH]; simpl in *; [lia|].
  destruct v; [congruence | simpl; lia].
Qed.

End LoadedFacts.

(** X4.  A loaded group is a proper dictionary: its keys are distinct, no
    key has an empty list of records, and so it has at most as many keys as
    records. *)
Theorem load_group_shape
  (float_of_string : string -> option PyNum.float) (file : string)
  (root : list attrib_t) (drop canon : list string) (zero : bool)
  (tests : tests_t) (out : list string) :
  load float_of_string file root drop canon zero = Ok (tests, out) ->
  wf tests
  /\ (forall k records, lookup tests k = Some records -> records <> [])
  /\ List.length tests <= test_count tests.
Proof.
  intros Hload. pose proof (load_inv _ _ _ _ _ _ _ _ Hload) as Hinv.
  apply load_unfold in Hload as [Hload _].
  destruct (load_tests_steps _ _ _ _ _ _ _ Hload) as (Hwf & _ & _).
  unfold group_inv in Hinv. split; [apply Hwf; constructor|]. split.
  - intros k records Hk. apply get_Some_In in Hk.
    rewrite Forall_forall in Hinv. now destruct (Hinv _ Hk).
  - apply nonempty_count. eapply Forall_impl; [|exact Hinv].
    now intros kv [H _].
Qed.

Lemma load_group_shape_witness :
  wf scenario_group1
  /\ (forall k records,
        lookup scenario_group1 k = Some records -> records <> [])
  /\ List.length scenario_group1 <= test_count scenario_group1.
Proof.
  apply (load_group_shape sample_float "f1" [entry "a\\x\\t1.dll" "1.0"]
           (drop1 profile1) (canon profile1) false scenario_group1
           ["f1 has 1 entries and 1 tests"]).
  reflexivity.
Defined.

(** X5.  A loaded group holds one record for each entry of the file that
    has a name which the drop filter lets through, no more and no fewer,
    and the line that [load] prints reports this number and the number of
    keys. *)
Theorem load_counts_kept
  (float_of_string : string -> option PyNum.float) (file : string)
  (root : list attrib_t) (drop canon : list string) (zero : bool)
  (tests : tests_t) (out : list string) :
  load float_of_string file root drop canon zero = Ok (tests, out) ->
  test_count tests = List.length (filter (kept drop) root)
  /\ out = [(file ++ " has " ++ PyStr.of_nat (List.length (keys tests))
             ++ " entries and "
             ++ PyStr.of_nat (List.length (filter (kept drop) root))
             ++ " tests")%string].
Proof.
  intros Hload. apply load_unfold in Hload as [Hload ->].
  destruct (load_tests_steps _ _ _ _ _ _ _ Hload) as (_ & Hc & _).
  change (test_count []) with 0 in Hc. simpl in Hc.
  split; [exact Hc|]. unfold keys. now rewrite length_map, Hc.
Qed.

Lemma load_counts_kept_witness :
  test_count scenario_group1
  = List.length
      (filter (kept (drop1 profile1))
         [entry "a\\x\\t1.dll" "1.0"; entry "x\IL_Conformance\y" "0.5"])
  /\ ["f1 has 1 entries and 1 tests"]
     = [("f1" ++ " has " ++ PyStr.of_nat (List.length (keys scenario_group1))
         ++ " entries and "
         ++ PyStr.of_nat
              (List.length
                 (filter (kept (drop1 profile1))
                    [entry "a\\x\\t1.dll" "1.0";
                     entry "x\IL_Conformance\y" "0.5"]))
         ++ " tests")%string].
Proof.
  apply (load_counts_kept sample_float "f1"
           [entry "a\\x\\t1.dll" "1.0"; entry "x\IL_Conformance\y" "0.5"]
           (drop1 profile1) (canon profile1) false).
  reflexivity.
Defined.

(** X6.  Under each key a loaded group holds the raw names of the entries
    that are kept and have this canonical key, in the order of the file:
    records are neither reordered nor merged. *)
Theorem load_keeps_order
  (float_of_string : string -> option PyNum.float) (file : string)
  (root : list attrib_t) (drop canon : list string) (zero : bool)
  (tests : tests_t) (out : list string) (k : string) :
  load float_of_string file root drop canon zero = Ok (tests, out) ->
  map fst (item tests k) = stored_names drop canon k root.
Proof.
  intros Hload. apply load_unfold in Hload as [Hload _].
  destruct (load_tests_steps _ _ _ _ _ _ _ Hload) as (_ & _ & Hi).
  now rewrite Hi.
Qed.

Lemma load_keeps_order_witness :
  map fst (item scenario_group2 "a\x\t1")
  = stored_names (drop2 profile1) (canon profile1) "a\x\t1"
      [entry "A\x\T1.cmd" "0.5"; entry "runtime_81018\t" "1.0";
       entry "a\x\t1.dll" "0.6"].
Proof.
  apply (load_keeps_order sample_float "f2"
           [entry "A\x\T1.cmd" "0.5"; entry "runtime_81018\t" "1.0";
            entry "a\x\t1.dll" "0.6"]
           (drop2 profile1) (canon profile1) false scenario_group2
           ["f2 has 1 entries and 2 tests"]).
  reflexivity.
Defined.

(** X7.  A key of a loaded group is an entry of the canonicalization list
    or a normalized name, which has no capital letter: names that differ
    from a list entry only in case never collapse onto it. *)
Theorem load_key_shape
  (float_of_string : string -> option PyNum.float) (file : string)
  (root : list attrib_t) (drop canon : list string) (zero : bool)
  (tests : tests_t) (out : list string) (k : string) :
  load float_of_string file root drop canon zero = Ok (tests, out) ->
  In k (keys tests) ->
  In k canon
  \/ (has_char is_capital k = false /\ exists name, k = normalize name).
Proof.
  intros Hload Hk. apply load_inv in Hload. unfold group_inv in Hload.
  rewrite Forall_forall in Hload.
  apply in_map_iff in Hk as [[k' records] [Hk' Hin]]. simpl in Hk'. subst k'.
  destruct (Hload _ Hin) as [Hne Hall]. simpl in *.
  destruct records as [|r records]; [congruence|].
  inversion Hall as [|? ? [Hr _] _]; subst.
  unfold canonical_key.
  destruct (collapse_cases canon (normalize (fst r))) as [E|[E _]].
  - right. rewrite E. split; [apply normalize_no_capital | eauto].
  - now left.
Qed.

Lemma load_key_shape_witness :
  In "a\x\t1" (canon profile1)
  \/ (has_char is_capital "a\x\t1" = false
      /\ exists name, "a\x\t1" = normalize name).
Proof.
  apply (load_key_shape sample_float "f1" [entry "a\\x\\t1.dll" "1.0"]
           (drop1 profile1) (canon profile1) false scenario_group1
           ["f1 has 1 entries and 1 tests"] "a\x\t1").
  - reflexivity.
  - simpl. tauto.
Defined.

(** X8.  The canonicalization list is searched in order and the first
    entry that occurs in the name wins, even when later entries occur in
    it as well; a name in which no entry occurs is left as it is. *)
Theorem collapse_first_match (before after : list string) (c s : string) :
  (forall c', In c' before -> PyStr.contains c' s = false) ->
  (PyStr.contains c s = true -> collapse (before ++ c :: after) s = c)
  /\ (PyStr.contains c s = false ->
      (forall c', In c' after -> PyStr.contains c' s = false) ->
      collapse (before ++ c :: after) s = s).
Proof.
  intros Hbefore. induction before as [|b before IH]; simpl.
  - split.
    + now intros ->.
    + intros -> Hafter. clear Hbefore.
      induction after as [|a after IHa]; simpl; [reflexivity|].
      rewrite (Hafter a) by now left. apply IHa. intros c' Hc'.
      apply Hafter. now right.
  - rewrite (Hbefore b) by now left. apply IH. intros c' Hc'.
    apply Hbefore. now right.
Qed.

Lemma collapse_first_match_witness :
  collapse (canon profile1) "jit\github_26491\b598031" = "b598031"
  /\ collapse (canon profile1) "jit\methodical\t1" = "jit\methodical\t1".
Proof.
  split.
  - refine (proj1 (collapse_first_match [] ["github_26491"; canon_b323557]
                     "b598031" "jit\github_26491\b598031" _) _).
    + intros c' [].
    + reflexivity.
  - refine (proj2 (collapse_first_match ["b598031"; "github_26491"] []
                     canon_b323557 "jit\methodical\t1" _) _ _).
    + intros c' [<-|[<-|[]]]; reflexivity.
    + reflexivity.
    + intros c' [].
Defined.

(** X9.  The empty string occurs in every name, so a drop list that holds
    it drops every entry: the loaded group is empty, and no [time]
    attribute is ever read. *)
Theorem load_empty_drop_string
  (float_of_string : string -> option PyNum.float) (file : string)
  (root : list attrib_t) (drop canon : list string) (zero : bool) :
  In "" drop ->
  (forall attrib, In attrib root -> lookup attrib "name" <> None) ->
  load float_of_string file root drop canon zero
  = Ok ([], [(file ++ " has 0 entries and 0 tests")%string]).
Proof.
  intros Hin Hnames. unfold load.
  assert (H : load_tests float_of_string drop canon zero [] root = Ok []).
  { induction root as [|attrib root IH]; simpl; [reflexivity|].
    unfold load_test.
    destruct (lookup attrib "name") as [name|] eqn:E.
    - assert (Hd : dropped drop (normalize name) = true).
      { unfold dropped. apply existsb_exists. exists "". split; [assumption|].
        now destruct (normalize name). }
      rewrite Hd. simpl. apply IH. intros a Ha. apply Hnames. now right.
    - exfalso. apply (Hnames attrib); [now left | assumption]. }
  rewrite H. reflexivity.
Qed.

Lemma load_empty_drop_string_witness :
  load sample_float "f" [entry "a" "soon"; entry_without_time "b"]
    ["x"; ""] [] false
  = Ok ([], ["f has 0 entries and 0 tests"]).
Proof.
  apply (load_empty_drop_string sample_float "f"
           [entry "a" "soon"; entry_without_time "b"] ["x"; ""] [] false).
  - simpl. tauto.
  - intros attrib [<-|[<-|[]]]; discriminate.
Defined.

(** ** The orchestrator *)

Section GetFacts.
Variable float_of_string : string -> option PyNum.float.
Variable parse : string -> result (list attrib_t).

Lemma load_succeeds_iff (file : string) (root : list attrib_t)
  (drop canon : list string) (zero : bool) :
  (exists r, load float_of_string file root drop canon zero = Ok r)
  <-> forall attrib, In attrib root ->
                     ~ fatal float_of_string drop zero attrib.
Proof.
  pose proof (load_tests_raises float_of_string drop canon zero root [])
    as Hraise.
  unfold load.
  destruct (load_tests float_of_string drop canon zero [] root) as [t|e];
    simpl.
  - split; [|intros _; eexists; reflexivity].
    intros _ attrib Hin Hf.
    destruct (proj2 Hraise (ex_intro _ attrib (conj Hin Hf))) as [e He].
    discriminate.
  - split; [intros [r Hr]; discriminate|].
    intros Hall. exfalso.
    destruct (proj1 Hraise (ex_intro _ e eq_refl)) as [attrib [Hin Hf]].
    exact (Hall attrib Hin Hf).
Qed.

Lemma load_group2_succeeds_iff (drop2 canon : list string)
  (files : list string) : forall tests2 : tests_t,
  (exists r, load_group2 float_of_string parse drop2 canon tests2 files = Ok r)
  <-> forall file, In file files ->
                   loadable float_of_string parse drop2 false file.
Proof.
  induction files as [|file files IH]; intros tests2; simpl.
  - split; [intros _ f [] | intros _; eexists; reflexivity].
  - destruct (parse file) as [root|e] eqn:Ep; simpl.
    2: { split; [intros [r Hr]; discriminate|].
         intros Hall. destruct (Hall file (or_introl eq_refl)) as [root [H _]].
         congruence. }
    pose proof (load_succeeds_iff file root drop2 canon false) as Hload.
    destruct (load float_of_string file root drop2 canon false)
      as [loaded|e] eqn:El; simpl.
    2: { split; [intros [r Hr]; discriminate|].
         intros Hall. destruct (Hall file (or_introl eq_refl))
           as [root' [Hp Hok]].
         assert (root' = root) by congruence. subst root'.
         destruct (proj2 Hload Hok) as [r Hr]. discriminate. }
    specialize (IH (update_dict_list tests2 (fst loaded))).
    destruct (load_group2 float_of_string parse drop2 canon
                (update_dict_list tests2 (fst loaded)) files)
      as [rest|e] eqn:Er; simpl.
    + split; [|intros _; eexists; reflexivity].
      intros _ f [<-|Hf].
      * exists root. split; [assumption|].
        apply Hload. eexists; reflexivity.
      * apply (proj1 IH); [eexists; reflexivity | assumption].
    + split; [intros [r Hr]; discriminate|].
      intros Hall. destruct (proj2 IH) as [r Hr]; [|discriminate].
      intros f Hf. apply Hall. now right.
Qed.

Lemma load_group2_shape (drop2 canon : list string) (files : list string) :
  forall (tests2 t : tests_t) (out : list string),
  load_group2 float_of_string parse drop2 canon tests2 files = Ok (t, out) ->
  (wf tests2 -> wf t)
  /\ List.length out = List.length files
  /\ exists roots,
       Forall2 (fun file root => parse file = Ok root) files roots
       /\ test_count t
          = test_count tests2
            + list_sum
                (map (fun root => List.length (filter (kept drop2) root))
                   roots).
Proof.
  induction files as [|file files IH]; intros tests2 t out; simpl.
  - intros [= <- <-]. repeat split; auto.
    exists []. split; [constructor | simpl; lia].
  - destruct (parse file) as [root|e] eqn:Ep; simpl; [|discriminate].
    destruct (load float_of_string file root drop2 canon false)
      as [[loaded out1]|e] eqn:El; simpl; [|discriminate].
    destruct (load_group2 float_of_string parse drop2 canon
                (update_dict_list tests2 loaded) files)
      as [[rest out2]|e] eqn:Er; simpl; [|discriminate].
    intros [= <- <-].
    destruct (IH _ _ _ Er) as (Hwf & Hlen & roots & Hroots & Hcount).
    apply load_unfold in El as [El ->].
    destruct (load_tests_steps _ _ _ _ _ _ _ El) as (_ & Hc & _).
    change (test_count []) with 0 in Hc. simpl in Hc.
    repeat split.
    + intros H. apply Hwf. now apply update_dict_list_wf.
    + simpl. now rewrite Hlen.
    + exists (root :: roots). split; [now constructor|].
      rewrite Hcount, test_count_update, Hc. simpl. lia.
Qed.

End GetFacts.

(** X10.  Group 2 is built from all the remaining files: when they load,
    [load_group2] prints one line for each file, keeps the keys distinct,
    and adds to the group exactly one record for each kept entry of each
    file. *)
Theorem load_group2_adds_all
  (float_of_string : string -> option PyNum.float)
  (parse : string -> result (list attrib_t)) (drop2 canon : list string)
  (files : list string) (tests2 t : tests_t) (out : list string) :
  load_group2 float_of_string parse drop2 canon tests2 files = Ok (t, out) ->
  wf tests2 ->
  wf t
  /\ List.length out = List.length files
  /\ exists roots,
       Forall2 (fun file root => parse file = Ok root) files roots
       /\ test_count t
          = test_count tests2
            + list_sum
                (map (fun root => List.length (filter (kept drop2) root))
                   roots).
Proof.
  intros Hload Hwf.
  destruct (load_group2_shape _ _ _ _ _ _ _ _ Hload) as (H1 & H2 & H3).
  auto.
Qed.

Lemma load_group2_adds_all_witness :
  wf scenario_group2
  /\ List.length
       ["f2 has 1 entries and 1 tests"; "f3 has 1 entries and 1 tests"]
     = List.length ["f2"; "f3"]
  /\ exists roots,
       Forall2 (fun file root => scenario_parse file = Ok root)
         ["f2"; "f3"] roots
       /\ test_count scenario_group2
          = test_count ([] : tests_t)
            + list_sum
                (map (fun root =>
                        List.length (filter (kept (drop2 profile1)) root))
                   roots).
Proof.
  apply (load_group2_adds_all sample_float scenario_parse (drop2 profile1)
           (canon profile1) ["f2"; "f3"] [] scenario_group2
           ["f2 has 1 entries and 1 tests"; "f3 has 1 entries and 1 tests"]).
  - reflexivity.
  - constructor.
Defined.


(** ** Silent comparisons *)

Lemma map_eq_nil_iff {X Y} (f : X -> Y) (l : list X) :
  map f l = [] <-> l = [].
Proof. destruct l; simpl; split; congruence. Qed.

Lemma mismatch_reported {A} (tests1 tests2 : dict (list A)) (k : string) :
  mismatch tests1 tests2 k ->
  In k (reported_keys tests1 tests2) \/ In k (reported_keys tests2 tests1).
Proof.
  rewrite !reported_keys_In.
  intros [[Ha Hb]|[[Ha Hb]|[Ha [Hb Hne]]]].
  - left. auto.
  - right. auto.
  - destruct (Nat.lt_ge_cases (List.length (item tests2 k))
                (List.length (item tests1 k))) as [Hlt|Hge].
    + left. auto.
    + right. split; [assumption|]. right. lia.
Qed.

(** X12.  The two runs of [print_diff] print nothing at all exactly when
    no key has a presence or count mismatch; a group compared with itself
    prints nothing. *)
Theorem print_diff_silent_iff {A} (tests1 tests2 : dict (list A))
  (label1 label2 : string) :
  (print_diff tests1 tests2 label1 ++ print_diff tests2 tests1 label2 = []
   <-> forall k, ~ mismatch tests1 tests2 k)
  /\ print_diff tests1 tests1 label1 = [].
Proof.
  assert (Hiff :
    print_diff tests1 tests2 label1 ++ print_diff tests2 tests1 label2 = []
    <-> forall k, ~ mismatch tests1 tests2 k).
  { rewrite !print_diff_findings. split.
    - intros H k Hm. apply app_eq_nil in H as [H1 H2].
      apply map_eq_nil_iff in H1. apply map_eq_nil_iff in H2.
      destruct (mismatch_reported _ _ _ Hm) as [Hin|Hin].
      + rewrite H1 in Hin. destruct Hin.
      + rewrite H2 in Hin. destruct Hin.
    - intros Hall.
      assert (H1 : reported_keys tests1 tests2 = []).
      { destruct (reported_keys tests1 tests2) as [|k l] eqn:E;
          [reflexivity|].
        exfalso. apply (reported_keys_silent tests1 tests2 k (Hall k)).
        rewrite E. now left. }
      assert (H2 : reported_keys tests2 tests1 = []).
      { destruct (reported_keys tests2 tests1) as [|k l] eqn:E;
          [reflexivity|].
        exfalso. apply (reported_keys_silent tests1 tests2 k (Hall k)).
        rewrite E. apply in_app_iff. right. now left. }
      now rewrite H1, H2. }
  split; [exact Hiff|].
  rewrite print_diff_findings.
  destruct (reported_keys tests1 tests1) as [|k l] eqn:E; [reflexivity|].
  exfalso.
  assert (Hin : In k (reported_keys tests1 tests1)) by (rewrite E; now left).
  apply reported_keys_In in Hin as [Hm [Hn|Hlt]]; [congruence | lia].
Qed.

(** X13.  When the two runs of the flat differ print nothing, the grouped
    differ prints nothing either. *)
Theorem print_grouped_by_dir_silent {A} (tests1 tests2 : dict (list A))
  (label1 label2 : string) :
  wf tests1 -> wf tests2 ->
  print_diff tests1 tests2 label1 = [] ->
  print_diff tests2 tests1 label2 = [] ->
  print_grouped_by_dir tests1 tests2 = [].
Proof.
  intros H1 H2 E1 E2.
  assert (Hall : forall k, ~ mismatch tests1 tests2 k).
  { intros k Hm. rewrite print_diff_findings in E1, E2.
    apply map_eq_nil_iff in E1. apply map_eq_nil_iff in E2.
    destruct (mismatch_reported _ _ _ Hm) as [Hin|Hin].
    - rewrite E1 in Hin. destruct Hin.
    - rewrite E2 in Hin. destruct Hin. }
  rewrite print_grouped_by_dir_blocks by assumption.
  induction (keys (group_test_by_directory tests1)) as [|d dirs IH];
    simpl; [reflexivity|].
  rewrite IH.
  destruct (block_of tests1 tests2 d) as [|line block] eqn:E;
    [reflexivity|].
  exfalso.
  assert (Hne : block_of tests1 tests2 d <> []) by (rewrite E; discriminate).
  apply block_of_nonempty in Hne as [k [_ [_ Hm]]].
  exact (Hall k Hm).
Qed.

Lemma print_grouped_by_dir_silent_witness :
  print_grouped_by_dir grouped_sample1 grouped_sample1 = [].
Proof.
  apply (print_grouped_by_dir_silent grouped_sample1 grouped_sample1 "1" "2").
  - unfold wf. simpl. repeat constructor; simpl; intuition discriminate.
  - unfold wf. simpl. repeat constructor; simpl; intuition discriminate.
  - reflexivity.
  - reflexivity.
Defined.

(** ** The timing differ on its own *)

Lemma flat_map_if {X Y} (p : X -> bool) (f : X -> Y) (l : list X) :
  flat_map (fun x => if p x then [f x] else []) l = map f (filter p l).
Proof.
  induction l as [|x l IH]; simpl; [reflexivity|].
  rewrite IH. now destruct (p x).
Qed.

(** X14.  [print_time_diff] prints one line for each key that both groups
    have and whose sums meet the test of line 79, in strictly ascending
    order of the keys, and nothing for any other key. *)
Theorem print_time_diff_spec (tests1 tests2 : tests_t) (label : string)
  (time_abs : Z) (time_ratio : PyNum.float) :
  wf tests1 ->
  exists flagged : list string,
    StronglySorted PyStr.lt flagged
    /\ (forall k,
          In k flagged <->
          In k (keys tests1) /\ In k (keys tests2)
          /\ slower (time_of tests1 k) (time_of tests2 k) time_abs time_ratio
             = true)
    /\ print_time_diff tests1 tests2 label time_abs time_ratio
       = map (fun k =>
                slower_line label k (time_of tests1 k) (time_of tests2 k)
                  (ratio_of (time_of tests1 k) (time_of tests2 k)))
           flagged.
Proof.
  intros Hwf.
  exists (filter
            (fun k =>
               slower (time_of tests1 k) (time_of tests2 k) time_abs
                 time_ratio)
            (PyStr.sort (filter (mem tests2) (keys tests1)))).
  split; [|split].
  - apply filter_strict, sort_strict, NoDup_filter. exact Hwf.
  - intros k. rewrite filter_In, sort_In, filter_In, mem_iff. tauto.
  - unfold print_time_diff. rewrite <- flat_map_if.
    apply flat_map_ext. intros k. reflexivity.
Qed.

Lemma print_time_diff_spec_witness :
  exists flagged : list string,
    StronglySorted PyStr.lt flagged
    /\ print_time_diff scenario_group1 zero_group "1" 3
         Args.time_ratio_default
       = map (fun k =>
                slower_line "1" k (time_of scenario_group1 k)
                  (time_of zero_group k)
                  (ratio_of (time_of scenario_group1 k)
                     (time_of zero_group k)))
           flagged.
Proof.
  destruct (print_time_diff_spec scenario_group1 zero_group "1" 3
              Args.time_ratio_default) as (flagged & Hs & _ & Hout).
  - unfold wf. simpl. repeat constructor. simpl. tauto.
  - exists flagged. split; assumption.
Defined.

Lemma sum_zeros (l : list record) :
  (forall r, In r l -> snd r = PyNum.zero) ->
  PyNum.sum (map snd l) = PyNum.zero.
Proof.
  unfold PyNum.sum. induction l as [|r l IH]; simpl; intros H;
    [reflexivity|].
  rewrite (H r) by now left. change (PyNum.add PyNum.zero PyNum.zero)
    with PyNum.zero.
  apply IH. intros r' Hr'. apply H. now right.
Qed.

Lemma gt_zero_over_abs_zero (v : PyNum.float) :
  PyNum.gt v PyNum.zero = true ->
  PyNum.gt_int (PyNum.sub v PyNum.zero) 0 = true.
Proof.
  destruct v as [s|[|]| |[|] m e];
    try (intros H; now (discriminate H || reflexivity)).
  intros _. unfold PyNum.sub, PyNum.zero. cbn [SFsub].
  unfold PyNum.gt_int. destruct e as [|p|p]; [reflexivity | | reflexivity].
  apply Z.ltb_lt. apply Z.mul_pos_pos; [reflexivity|].
  apply Z.pow_pos_nonneg; [reflexivity | discriminate].
Qed.

(** X15.  With the times of the first group zeroed and the absolute
    threshold forced to 0, as [--zero-first] does, every key of both groups
    whose time in the second group is positive is reported as slower in the
    second group, whatever [time_ratio] is, infinite or not a number
    included. *)
Theorem zero_first_flags (tests1 tests2 : tests_t) (label : string)
  (time_ratio : PyNum.float) (k : string) :
  In k (keys tests1) -> In k (keys tests2) ->
  (forall r, In r (item tests1 k) -> snd r = PyNum.zero) ->
  PyNum.gt (time_of tests2 k) PyNum.zero = true ->
  In (slower_line label k (time_of tests2 k) PyNum.zero PyNum.inf)
     (print_time_diff tests2 tests1 label 0 time_ratio).
Proof.
  intros H1 H2 Hz Hpos.
  assert (E : time_of tests1 k = PyNum.zero) by now apply sum_zeros.
  pose proof (print_time_diff_In tests2 tests1 label 0 time_ratio k H2 H1)
    as H.
  rewrite E in H. apply H. unfold slower.
  now rewrite gt_zero_over_abs_zero.
Qed.

Lemma zero_first_flags_witness :
  In (slower_line "2" "a\x\t1" (time_of scenario_group2 "a\x\t1")
        PyNum.zero PyNum.inf)
     (print_time_diff scenario_group2 zeroed_group1 "2" 0 PyNum.inf).
Proof.
  apply (zero_first_flags zeroed_group1 scenario_group2 "2" PyNum.inf
           "a\x\t1").
  - simpl. tauto.
  - simpl. tauto.
  - intros r [<-|[]]. reflexivity.
  - reflexivity.
Defined.

(** ** Directories on their own *)

(** X16.  Grouping by directory loses and invents nothing: a key has a
    value in the group exactly when it has this value in the dictionary of
    its own directory; every directory listed holds at least one key, only
    keys of this directory, each once; and no directory is listed twice. *)
Theorem group_test_by_directory_partition {A} (tests : dict (list A)) :
  wf tests ->
  wf (group_test_by_directory tests)
  /\ (forall k v,
        lookup tests k = Some v <->
        exists inner,
          lookup (group_test_by_directory tests) (test_dir_of k) = Some inner
          /\ lookup inner k = Some v)
  /\ (forall d inner,
        lookup (group_test_by_directory tests) d = Some inner ->
        inner <> [] /\ wf inner
        /\ forall k, In k (keys inner) -> test_dir_of k = d).
Proof.
  intros Hwf. split; [apply wf_group_test_by_directory|]. split.
  - intros k v. split.
    + intros Hk. exists (under_dir (test_dir_of k) tests).
      rewrite lookup_group_test_by_directory by assumption.
      assert (Hin : lookup (under_dir (test_dir_of k) tests) k = Some v).
      { rewrite lookup_under_dir. unfold in_dir.
        now rewrite String.eqb_refl. }
      split; [|exact Hin].
      destruct (under_dir (test_dir_of k) tests); [discriminate Hin|].
      reflexivity.
    + intros [inner [Hd Hk]].
      rewrite lookup_group_test_by_directory in Hd by assumption.
      destruct (under_dir (test_dir_of k) tests) eqn:E; [discriminate|].
      injection Hd as <-. rewrite <- E, lookup_under_dir in Hk.
      unfold in_dir in Hk. now rewrite String.eqb_refl in Hk.
  - intros d inner Hd.
    rewrite lookup_group_test_by_directory in Hd by assumption.
    destruct (under_dir d tests) eqn:E; [discriminate|].
    injection Hd as <-. rewrite <- E. repeat split.
    + rewrite E. discriminate.
    + now apply wf_under_dir.
    + intros k Hk. now apply keys_under_dir in Hk.
Qed.

Lemma group_test_by_directory_partition_witness :
  wf (group_test_by_directory grouped_sample1)
  /\ (exists inner,
        lookup (group_test_by_directory grouped_sample1)
          (test_dir_of "z\b\c") = Some inner
        /\ lookup inner "z\b\c" = Some [1; 2]).
Proof.
  destruct (group_test_by_directory_partition grouped_sample1)
    as (Hwf & Hiff & _).
  - unfold wf. simpl. repeat constructor; simpl; intuition discriminate.
  - split; [exact Hwf|]. apply Hiff. reflexivity.
Defined.

Lemma split_without_backslash (k : string) :
  PyStr.contains backslash_str k = false ->
  PyStr.split PyStr.backslash k = [k].
Proof.
  induction k as [|c k IH]; [reflexivity|].
  cbn [PyStr.contains]. intros H. apply orb_false_iff in H as [Hp Hc].
  cbn [PyStr.split]. destruct (Ascii.eqb_spec c PyStr.backslash) as [->|Hne].
  - exfalso. revert Hp. unfold backslash_str. simpl.
    destruct (ascii_dec PyStr.backslash PyStr.backslash); [|congruence].
    now destruct k.
  - now rewrite (IH Hc).
Qed.

(** X17.  The directory and the short name of a key put together give the
    key back: a key in a directory with a name is the directory, a
    backslash and the short name, and a key without a backslash is its own
    short name in the directory with the empty name. *)
Theorem key_of_test_dir_and_short_name (k : string) :
  (test_dir_of k <> "" ->
   k = (test_dir_of k ++ backslash_str ++ short_name_of k)%string)
  /\ (PyStr.contains backslash_str k = false ->
      test_dir_of k = "" /\ short_name_of k = k).
Proof.
  split; [apply key_of_dir_and_short_name|].
  intros H. unfold test_dir_of, short_name_of.
  rewrite (split_without_backslash k H). split; reflexivity.
Qed.

Lemma key_of_test_dir_and_short_name_witness :
  "jit\methodical\a\x\t1"
  = (test_dir_of "jit\methodical\a\x\t1" ++ backslash_str
     ++ short_name_of "jit\methodical\a\x\t1")%string
  /\ test_dir_of "t1" = "" /\ short_name_of "t1" = "t1".
Proof.
  split.
  - apply (proj1 (key_of_test_dir_and_short_name "jit\methodical\a\x\t1")).
    discriminate.
  - apply (proj2 (key_of_test_dir_and_short_name "t1")). reflexivity.
Defined.

(** ** Drop lists that differ between the groups *)

Lemma load_keys_not_dropped
  (float_of_string : string -> option PyNum.float) (file : string)
  (root : list attrib_t) (drop canon : list string) (zero : bool)
  (tests : tests_t) (out : list string) (k : string) :
  load float_of_string file root drop canon zero = Ok (tests, out) ->
  In k (keys tests) -> dropped drop k = false.
Proof.
  intros Hload Hk. apply load_inv in Hload. unfold group_inv in Hload.
  rewrite Forall_forall in Hload.
  apply in_map_iff in Hk as [[k' records] [Hk' Hin]]. simpl in Hk'. subst k'.
  destruct (Hload _ Hin) as [Hne Hall]. simpl in *.
  destruct records as [|r records]; [congruence|].
  inversion Hall as [|? ? [Hr [Hd _]] _]; subst.
  now apply dropped_canonical_key.
Qed.

Lemma load_group2_keys_not_dropped
  (float_of_string : string -> option PyNum.float)
  (parse : string -> result (list attrib_t)) (drop2 canon : list string)
  (files : list string) : forall (tests2 t : tests_t) (out : list string),
  load_group2 float_of_string parse drop2 canon tests2 files = Ok (t, out) ->
  (forall k, In k (keys tests2) -> dropped drop2 k = false) ->
  forall k, In k (keys t) -> dropped drop2 k = false.
Proof.
  induction files as [|file files IH]; intros tests2 t out; simpl.
  - now intros [= <- <-].
  - destruct (parse file) as [root|e]; simpl; [|discriminate].
    destruct (load float_of_string file root drop2 canon false)
      as [[loaded out1]|e] eqn:El; simpl; [|discriminate].
    destruct (load_group2 float_of_string parse drop2 canon
                (update_dict_list tests2 loaded) files)
      as [[rest out2]|e] eqn:Er; simpl; [|discriminate].
    intros [= <- <-] Hinv. apply (IH _ _ _ Er).
    intros k Hk. apply mem_iff in Hk.
    rewrite update_dict_list_mem in Hk. apply orb_true_iff in Hk as [Hk|Hk].
    + apply Hinv. now apply mem_iff.
    + apply mem_iff in Hk. eapply load_keys_not_dropped; eassumption.
Qed.

Lemma print_diff_only_in {A} (tests1 tests2 : dict (list A))
  (label k : string) :
  In k (keys tests1) -> ~ In k (keys tests2) ->
  In (only_in_line label k) (print_diff tests1 tests2 label).
Proof.
  intros H1 H2. unfold print_diff. apply in_flat_map. exists k. split.
  - now apply sort_In.
  - unfold diff_line. apply get_None_iff in H2. rewrite H2. now left.
Qed.

(** X18.  The two groups are filtered by their own drop lists: a key of
    group 1 that holds a substring of the second drop list is never a key of
    group 2, whatever the files of group 2 hold, so the differ reports it as
    only in group 1. *)
Theorem dropped_in_group2_only_in_1
  (float_of_string : string -> option PyNum.float)
  (parse : string -> result (list attrib_t)) (drop2 canon : list string)
  (files : list string) (tests1 tests2 : tests_t) (out : list string)
  (k : string) :
  load_group2 float_of_string parse drop2 canon [] files = Ok (tests2, out) ->
  In k (keys tests1) -> dropped drop2 k = true ->
  ~ In k (keys tests2)
  /\ In (only_in_line "1" k) (print_diff tests1 tests2 "1").
Proof.
  intros Hload Hk Hd.
  assert (Hnot : ~ In k (keys tests2)).
  { intros Hin.
    rewrite (load_group2_keys_not_dropped _ _ _ _ _ _ _ _ Hload) in Hd;
      [discriminate | intros k' [] | assumption]. }
  split; [exact Hnot | now apply print_diff_only_in].
Qed.

Lemma dropped_in_group2_only_in_1_witness :
  ~ In "jit\runtime_81018\t" (keys scenario_group2)
  /\ In (only_in_line "1" "jit\runtime_81018\t")
        (print_diff [("jit\runtime_81018\t", [("t", float_1_0)])]
           scenario_group2 "1").
Proof.
  apply (dropped_in_group2_only_in_1 sample_float scenario_parse
           (drop2 profile1) (canon profile1) ["f2"; "f3"]
           [("jit\runtime_81018\t", [("t", float_1_0)])] scenario_group2
           ["f2 has 1 entries and 1 tests"; "f3 has 1 entries and 1 tests"]).
  - reflexivity.
  - simpl. tauto.
  - reflexivity.
Defined.
